(** * MALA atomic-density descriptors and feed-forward network construction

    A shallow embedding of [mala/descriptors/atomic_density.py] and of the
    constructor of [FeedForwardNet] in [mala/network/network.py].

    Conventions of the embedding.
    - Python [int]s are [Z]. Floats are idealised as rationals [Q]: the
      arithmetic operators of the source map to [Qplus], [Qminus], [Qmult],
      [Qdiv], no rounding. A division of numpy floats does not raise (its
      value for a zero divisor, inf or nan, is not modelled, and no
      statement below uses it); the one division of Python floats, line 242
      of the direct path, raises [ZeroDivisionError] on a zero divisor.
    - A method that mutates [self] or raises is a computation in the monad
      [py S A := S -> result A * S]: the state survives a raised exception,
      as the attributes of a Python object do.
    - A numpy array is a strided view over a flat buffer, with numpy's bounds
      checks and negative-index wrap-around written out.
    - What lives outside the two source files is a collaborator of the model:
      [np.exp], the value of [np.sqrt(2*np.pi)], ASE's neighbour list, which
      may raise, and the engine run ([ase.io.write], [_setup_lammps],
      [lmp.file], [extract_compute_np], [lmp.close]) in class [External];
      [nn.Linear] and [Module.to], which may raise, in class [Torch]. *)

From Stdlib Require Import ZArith QArith Qminmax Lia Lqa Bool.
From stdpp Require Import base list strings.

Set Default Proof Using "Type".
Open Scope Z_scope.

(* ===================================================================== *)
(** * Part I: definitions                                                 *)
(* ===================================================================== *)

(** ** Exceptions and the state-and-exception monad *)

Inductive PyExc : Type :=
| TypeError (msg : string)
| ValueError (msg : string)
| IndexError (msg : string)
| ZeroDivisionError (msg : string)
| RuntimeError (msg : string)
| AssertionError (msg : string)
| Exception (msg : string).

Inductive result (A : Type) : Type :=
| Ok (a : A)
| Raise (e : PyExc).
Arguments Ok {A} a.
Arguments Raise {A} e.

Definition result_bind {A B} (r : result A) (f : A -> result B) : result B :=
  match r with
  | Ok a => f a
  | Raise e => Raise e
  end.

Definition py (S A : Type) : Type := S -> result A * S.

Definition ret {S A} (a : A) : py S A := fun s => (Ok a, s).
Definition raise {S A} (e : PyExc) : py S A := fun s => (Raise e, s).
Definition bind {S A B} (m : py S A) (f : A -> py S B) : py S B :=
  fun s => match m s with
           | (Ok a, s') => f a s'
           | (Raise e, s') => (Raise e, s')
           end.
Definition get_state {S} : py S S := fun s => (Ok s, s).
Definition put_state {S} (s : S) : py S unit := fun _ => (Ok tt, s).
Definition lift_result {S A} (r : result A) : py S A := fun s => (r, s).

Declare Scope py_scope.
Delimit Scope py_scope with py.
Notation "x <- m ;; k" := (bind m (fun x => k))
  (at level 100, m at next level, right associativity) : py_scope.
Notation "m ;; k" := (bind m (fun _ => k))
  (at level 100, right associativity) : py_scope.
Notation "x <~ r ;; k" := (result_bind r (fun x => k))
  (at level 100, r at next level, right associativity) : py_scope.
Open Scope py_scope.

(** [range(n)] and [for x in xs: body]. *)
Definition range (n : Z) : list Z := map Z.of_nat (seq 0 (Z.to_nat n)).

Fixpoint for_each {S A} (xs : list A) (body : A -> py S unit) : py S unit :=
  match xs with
  | [] => ret tt
  | x :: rest => body x ;; for_each rest body
  end.

(** ** numpy arrays as strided views *)

Record ndarray : Type := mk_ndarray {
  shape : list Z;
  strides : list Z;      (* in elements *)
  offset : Z;
  data : list Q
}.

Definition prod_shape (sh : list Z) : Z := fold_right Z.mul 1 sh.

Fixpoint c_strides (sh : list Z) : list Z :=
  match sh with
  | [] => []
  | _ :: rest => prod_shape rest :: c_strides rest
  end.

Definition ndim (a : ndarray) : Z := Z.of_nat (length (shape a)).
Definition size (a : ndarray) : Z := prod_shape (shape a).

(** One index against an axis of length [n]: numpy accepts [-n <= i < n]. *)
Definition norm_index (n i : Z) : result Z :=
  if (0 <=? i) && (i <? n) then Ok i
  else if (- n <=? i) && (i <? 0) then Ok (i + n)
  else Raise (IndexError "index is out of bounds for axis").

Fixpoint flat_index (sh st idx : list Z) : result Z :=
  match sh, st, idx with
  | [], [], [] => Ok 0
  | n :: sh', s :: st', i :: idx' =>
      i' <~ norm_index n i ;;
      r <~ flat_index sh' st' idx' ;;
      Ok (i' * s + r)
  | _, _, _ => Raise (IndexError "wrong number of indices for array")
  end.

(** [a[i0, ..., ik]] with a full index. *)
Definition getitem (a : ndarray) (idx : list Z) : result Q :=
  k <~ flat_index (shape a) (strides a) idx ;;
  match data a !! Z.to_nat (offset a + k) with
  | Some v => Ok v
  | None => Raise (IndexError "view outside of its buffer")
  end.

(** [a[i0, ..., ik] = v] with a full index. *)
Definition setitem (a : ndarray) (idx : list Z) (v : Q) : result ndarray :=
  k <~ flat_index (shape a) (strides a) idx ;;
  if (Z.to_nat (offset a + k) <? length (data a))%nat then
    Ok (mk_ndarray (shape a) (strides a) (offset a)
          (<[Z.to_nat (offset a + k) := v]> (data a)))
  else Raise (IndexError "view outside of its buffer").

(** [np.zeros(shape)]. *)
Definition np_zeros (sh : list Z) : result ndarray :=
  if forallb (fun n => 0 <=? n) sh then
    Ok (mk_ndarray sh (c_strides sh) 0 (replicate (Z.to_nat (prod_shape sh)) 0%Q))
  else Raise (ValueError "negative dimensions are not allowed").

(** The array numpy wraps around a C-ordered buffer of the given shape. *)
Definition np_from_buffer (buf : list Q) (sh : list Z) : ndarray :=
  mk_ndarray sh (c_strides sh) 0 buf.

(** All index tuples of a shape, in C order. *)
Fixpoint all_indices (sh : list Z) : list (list Z) :=
  match sh with
  | [] => [[]]
  | n :: rest => flat_map (fun i => map (cons i) (all_indices rest)) (range n)
  end.

Fixpoint collect {A} (rs : list (result A)) : result (list A) :=
  match rs with
  | [] => Ok []
  | r :: rest => x <~ r ;; xs <~ collect rest ;; Ok (x :: xs)
  end.

(** [a.ravel()]: the elements in C order. *)
Definition ravel (a : ndarray) : result (list Q) :=
  collect (map (getitem a) (all_indices (shape a))).

Definition list_Z_eqb (l1 l2 : list Z) : bool :=
  (length l1 =? length l2)%nat && forallb (fun p => fst p =? snd p) (combine l1 l2).

Definition c_contiguous (a : ndarray) : bool :=
  list_Z_eqb (strides a) (c_strides (shape a)) && (offset a =? 0)
  && (Z.of_nat (length (data a)) =? size a).

(** The shape a reshape of [n] elements to [newshape] ends with: the sizes
    must agree, and a single negative entry stands for the dimension numpy
    infers from the others. *)
Definition fix_unknown_dimension (newshape : list Z) (n : Z) : result (list Z) :=
  if forallb (fun d => 0 <=? d) newshape then
    if prod_shape newshape =? n then Ok newshape
    else Raise (ValueError "cannot reshape array")
  else if Nat.ltb 1 (length (List.filter (fun d => d <? 0) newshape)) then
    Raise (ValueError "can only specify one unknown dimension")
  else
    let s_known := prod_shape (List.filter (fun d => 0 <=? d) newshape) in
    if (s_known =? 0) || negb (n mod s_known =? 0) then
      Raise (ValueError "cannot reshape array")
    else Ok (map (fun d => if d <? 0 then n / s_known else d) newshape).

(** [a.reshape(newshape)]: a view on the same buffer when [a] is
    C-contiguous, a C-ordered copy otherwise. *)
Definition reshape (a : ndarray) (newshape : list Z) : result ndarray :=
  newshape <~ fix_unknown_dimension newshape (size a) ;;
  if c_contiguous a then
    Ok (mk_ndarray newshape (c_strides newshape) 0 (data a))
  else
    buf <~ ravel a ;;
    Ok (mk_ndarray newshape (c_strides newshape) 0 buf).

Definition is_permutation (axes : list Z) (n : nat) : bool :=
  (length axes =? n)%nat
  && forallb (fun ax => existsb (Z.eqb ax) axes) (range (Z.of_nat n)).

(** [a.transpose(axes)]: axis [d] of the result is axis [axes[d]] of [a]. *)
Definition transpose (a : ndarray) (axes : list Z) : result ndarray :=
  if is_permutation axes (length (shape a)) then
    Ok (mk_ndarray (map (fun ax => nth (Z.to_nat ax) (shape a) 0) axes)
                   (map (fun ax => nth (Z.to_nat ax) (strides a) 0) axes)
                   (offset a) (data a))
  else Raise (ValueError "axes don't match array").

(** [a[:, :, :, start:]] on a four-dimensional array. *)
Definition slice_channels_from (a : ndarray) (start : Z) : result ndarray :=
  match shape a, strides a with
  | [n0; n1; n2; n3], [s0; s1; s2; s3] =>
      let b := if start <? 0 then Z.max 0 (n3 + start) else Z.min start n3 in
      Ok (mk_ndarray [n0; n1; n2; n3 - b] [s0; s1; s2; s3] (offset a + b * s3) (data a))
  | _, _ => Raise (IndexError "too many indices for array")
  end.

(** ** Data model of the descriptor calculation *)

Definition vec3 : Type := (Q * Q * Q)%type.

(** [v[i]] for [i] in 0..2. *)
Definition vec_at (v : vec3) (i : Z) : Q :=
  let '(x, y, z) := v in
  if i =? 0 then x else if i =? 1 then y else z.

(** The 3x3 matrix of basis vectors, one row per basis vector. *)
Record Cell : Type := mk_cell { row0 : vec3; row1 : vec3; row2 : vec3 }.

Definition cell_row (c : Cell) (r : Z) : vec3 :=
  if r =? 0 then row0 c else if r =? 1 then row1 c else row2 c.

(** [cell[r, k]]. *)
Definition cell_at (c : Cell) (r k : Z) : Q := vec_at (cell_row c r) k.

Definition is_zero (x : Q) : bool := Qeq_bool x 0.

(** ASE's [Cell.orthorhombic]: every off-diagonal entry is zero. *)
Definition orthorhombic (c : Cell) : bool :=
  is_zero (cell_at c 0 1) && is_zero (cell_at c 0 2) &&
  is_zero (cell_at c 1 0) && is_zero (cell_at c 1 2) &&
  is_zero (cell_at c 2 0) && is_zero (cell_at c 2 1).

Record Atoms : Type := mk_atoms {
  cell : Cell;
  symbols : list string;
  positions : list vec3
}.

(** [len(atoms)]. *)
Definition len_atoms (atoms : Atoms) : Z := Z.of_nat (length (positions atoms)).

(** [v / n] for a row [v] and an integer [n]. For [n = 0] numpy returns
    inf or nan entries (and warns) where the rationals return 0: the values
    of a voxel are meaningful for non-zero grid dimensions only. *)
Definition vec_div (v : vec3) (n : Z) : vec3 :=
  let '(x, y, z) := v in
  (x / inject_Z n, y / inject_Z n, z / inject_Z n)%Q.

(** [voxel = atoms.cell.copy(); voxel[r] = voxel[r] / grid_dimensions[r]]. *)
Definition voxel_of (c : Cell) (grid_dimensions : Z * Z * Z) : Cell :=
  let '(nx, ny, nz) := grid_dimensions in
  mk_cell (vec_div (row0 c) nx) (vec_div (row1 c) ny) (vec_div (row2 c) nz).

(** [np.diag(m)]. *)
Definition np_diag (m : Cell) : vec3 := (cell_at m 0 0, cell_at m 1 1, cell_at m 2 2).

(** [np.max(m)]: the largest of the nine entries. *)
Definition np_max (m : Cell) : Q :=
  let row_max (v : vec3) := let '(x, y, z) := v in Qmax (Qmax x y) z in
  Qmax (Qmax (row_max (row0 m)) (row_max (row1 m))) (row_max (row2 m)).

Definition optimal_sigma_aluminium : Q := 2 # 10.
Definition reference_grid_spacing_aluminium : Q :=
  8099000022712448 # 100000000000000000.

Definition get_optimal_sigma (voxel : Cell) : Q :=
  ((np_max voxel / reference_grid_spacing_aluminium) * optimal_sigma_aluminium)%Q.

(** The fields of [mala.common.parameters] the descriptor reads or writes. *)
Record Parameters : Type := mk_parameters {
  atomic_density_sigma : option Q;      (* None until set or derived *)
  atomic_density_cutoff : Q;
  descriptors_contain_xyz : bool;
  use_z_splitting : bool;
  configuration_lammps : bool;           (* _configuration["lammps"] *)
  configuration_mpi : bool               (* _configuration["mpi"] *)
}.

(** The calculator object: the shared parameters and its own attributes. *)
Record AtomicDensity : Type := mk_atomic_density {
  parameters : Parameters;
  grid_dimensions : option (Z * Z * Z);
  fingerprint_length : Z
}.

Definition set_sigma (s : Q) (p : Parameters) : Parameters :=
  mk_parameters (Some s) (atomic_density_cutoff p) (descriptors_contain_xyz p)
    (use_z_splitting p) (configuration_lammps p) (configuration_mpi p).

Definition set_parameters (p : Parameters) (self : AtomicDensity) : AtomicDensity :=
  mk_atomic_density p (grid_dimensions self) (fingerprint_length self).

Definition set_grid_dimensions (g : Z * Z * Z) (self : AtomicDensity) : AtomicDensity :=
  mk_atomic_density (parameters self) (Some g) (fingerprint_length self).

Definition set_fingerprint_length (n : Z) (self : AtomicDensity) : AtomicDensity :=
  mk_atomic_density (parameters self) (grid_dimensions self) n.

Definition modify {S} (f : S -> S) : py S unit := fun s => (Ok tt, f s).

(** What a descriptor calculation returns: an array, or an array and a count. *)
Inductive RetVal : Type :=
| RetArray (a : ndarray)
| RetTuple (a : ndarray) (n : Z).

(** ** Collaborators outside the two source files *)

(** What the engine script gets on its command line ([lammps_dict], the grid,
    the run file) and what [extract_compute_np] reads back. *)
Record EngineInput : Type := mk_engine_input {
  in_sigma : option Q;
  in_rcutfac : Q;
  in_grid : Z * Z * Z;
  in_runfile : string;
  in_use_fp64 : bool
}.

Record EngineOutput : Type := mk_engine_output {
  nrows_ggrid : Z;
  ncols_ggrid : Z;
  payload : list Q                  (* row-major, nrows * ncols values *)
}.

(** - [np_exp] is [np.exp] and [np_sqrt_2pi] the value of [np.sqrt(2*np.pi)].
    - [ase_get_neighbors cell positions cutoff a] is
      [NeighborList(cutoffs, bothways=True, self_interaction=False)], every
      cutoff being [cutoff], updated with the given atoms, then
      [get_neighbors(a)]: the neighbour indices and their cell offsets, or
      the exception ASE raises (a singular periodic cell makes
      [neighborlist.update] raise).
    - [lammps_run atoms input] writes the structure file, sets the engine up
      with [input], runs the script and extracts the compute "ggrid": its
      row count, its column count and its row-major payload (spec, section
      6, "Output extraction"). *)
Class External : Type := {
  np_exp : Q -> Q;
  np_sqrt_2pi : Q;
  ase_get_neighbors : Cell -> list vec3 -> Q -> Z -> result (list Z * list (Z * Z * Z));
  lammps_run : Atoms -> EngineInput -> EngineOutput
}.

(** ** The accelerated path: [__calculate_lammps] *)

Section Calculators.
Context `{External}.

Definition sigma_default (atoms : Atoms) (g : Z * Z * Z) (self : AtomicDensity)
  : AtomicDensity :=
  set_parameters (set_sigma (get_optimal_sigma (voxel_of (cell atoms) g))
                            (parameters self)) self.

Definition __calculate_lammps (atoms : Atoms) (grid : Z * Z * Z)
    (use_fp64 return_directly : bool) : py AtomicDensity RetVal :=
  let '(nx, ny, nz) := grid in
  self <- get_state ;;
  (match atomic_density_sigma (parameters self) with
   | None =>
       modify (set_grid_dimensions (nx, ny, nz)) ;;
       modify (sigma_default atoms (nx, ny, nz))
   | Some _ => ret tt
   end) ;;
  self <- get_state ;;
  let runfile :=
    if configuration_mpi (parameters self) then
      if use_z_splitting (parameters self) then "in.ggrid.python"
      else "in.ggrid_defaultproc.python"
    else "in.ggrid_defaultproc.python" in
  let out := lammps_run atoms
               (mk_engine_input (atomic_density_sigma (parameters self))
                  (atomic_density_cutoff (parameters self))
                  (nx, ny, nz) runfile use_fp64) in
  let nrows := nrows_ggrid out in
  let ncols := ncols_ggrid out in
  let gaussian_descriptors_np := np_from_buffer (payload out) [nrows; ncols] in
  modify (set_grid_dimensions (nx, ny, nz)) ;;
  if configuration_mpi (parameters self) then
    if return_directly then ret (RetArray gaussian_descriptors_np)
    else
      modify (set_fingerprint_length 4) ;;
      ret (RetTuple gaussian_descriptors_np nrows)
  else
    if return_directly then ret (RetArray gaussian_descriptors_np)
    else
      reshaped <- lift_result (reshape gaussian_descriptors_np [nz; ny; nx; 7]) ;;
      transposed <- lift_result (transpose reshaped [2; 1; 0; 3]) ;;
      if descriptors_contain_xyz (parameters self) then
        modify (set_fingerprint_length 4) ;;
        view <- lift_result (slice_channels_from transposed 3) ;;
        ret (RetTuple view (nx * ny * nz))
      else
        modify (set_fingerprint_length 1) ;;
        view <- lift_result (slice_channels_from transposed 6) ;;
        ret (RetTuple view (nx * ny * nz)).

(** ** The direct path: [__calculate_python] *)

(** Array accesses of the loop body, on the local array
    [gaussian_descriptors_np]. *)
Definition get_item (idx : list Z) : py ndarray Q :=
  fun a => (getitem a idx, a).

Definition set_item (idx : list Z) (v : Q) : py ndarray unit :=
  fun a => match setitem a idx v with
           | Ok a' => (Ok tt, a')
           | Raise e => (Raise e, a)
           end.

(** [a[i, j, k, 0:3] = v]. *)
Definition set_xyz (i j k : Z) (v : vec3) : py ndarray unit :=
  let '(x, y, z) := v in
  set_item [i; j; k; 0] x ;;
  set_item [i; j; k; 1] y ;;
  set_item [i; j; k; 2] z.

(** [a[i, j, k, 0:3]]. *)
Definition get_xyz (i j k : Z) : py ndarray vec3 :=
  x <- get_item [i; j; k; 0] ;;
  y <- get_item [i; j; k; 1] ;;
  z <- get_item [i; j; k; 2] ;;
  ret (x, y, z).

(** [v * [i, j, k]], elementwise. *)
Definition vec_scale_by_index (v : vec3) (i j k : Z) : vec3 :=
  let '(x, y, z) := v in
  (x * inject_Z i, y * inject_Z j, z * inject_Z k)%Q.

(** Python's [i / n] on two ints. *)
Definition int_div (i n : Z) : Q := (inject_Z i / inject_Z n)%Q.

(** Lines 252-266: the coordinate of grid point (i, j, k). *)
Definition set_grid_coordinate (atoms : Atoms) (grid : Z * Z * Z) (voxel : Cell)
    (i j k : Z) : py ndarray unit :=
  let '(nx, ny, nz) := grid in
  if orthorhombic (cell atoms) then
    set_xyz i j k (vec_scale_by_index (np_diag voxel) i j k)
  else
    set_item [i; j; k; 0]
      (int_div i nx * cell_at (cell atoms) 0 0 +
       int_div j ny * cell_at (cell atoms) 1 0 +
       int_div k nz * cell_at (cell atoms) 2 0)%Q ;;
    set_item [i; j; k; 1]
      (int_div j ny * cell_at (cell atoms) 1 1 +
       int_div k nz * cell_at (cell atoms) 1 2)%Q ;;
    set_item [i; j; k; 2]
      (int_div k nz * cell_at (cell atoms) 2 2)%Q.

(** [np.argwhere(indices < n)]: the places of the entries below [n]. *)
Definition np_argwhere_lt (indices : list Z) (n : Z) : list Z :=
  map fst (filter (fun p => Is_true (snd p <? n))
                  (combine (range (Z.of_nat (length indices))) indices)).

Definition not_callable : PyExc :=
  TypeError "'numpy.ndarray' object is not callable".

(** Calling a numpy array: [indices()]. *)
Definition call_ndarray {S} (indices : list Z) : py S (list Z) :=
  raise not_callable.

(** Lines 270-282: the neighbour list of the grid point. *)
Definition query_neighbors (atoms : Atoms) (cutoff : Q) (i j k : Z)
  : py ndarray (list Z) :=
  point <- get_xyz i j k ;;
  let atoms_with_grid_point := positions atoms ++ [point] in
  neighbors <- lift_result
    (ase_get_neighbors (cell atoms) atoms_with_grid_point cutoff (len_atoms atoms)) ;;
  let '(indices, offsets) := neighbors in
  let nogrid := np_argwhere_lt indices (len_atoms atoms) in
  indices_nogrid <- call_ndarray indices ;;
  ret indices_nogrid.

(** [np.sum(p - q)] for two 3-vectors. *)
Definition np_sum_diff (p q : vec3) : Q :=
  let '(p0, p1, p2) := p in
  let '(q0, q1, q2) := q in
  ((p0 - q0) + (p1 - q1) + (p2 - q2))%Q.

Definition Qltb (x y : Q) : bool := negb (Qle_bool y x).

(** Lines 286-290: what atom [a] adds at grid point (i, j, k). *)
Definition add_atom_density (cutoff_squared prefactor argumentfactor : Q)
    (i j k : Z) (position : vec3) : py ndarray unit :=
  point <- get_xyz i j k ;;
  let distance_squared := np_sum_diff position point in
  if Qltb distance_squared cutoff_squared then
    old <- get_item [i; j; k; 3] ;;
    set_item [i; j; k; 3]
      (old + prefactor * np_exp (- distance_squared * argumentfactor))%Q
  else ret tt.

(** Lines 283-290: the loop over the atoms. *)
Definition accumulate_density (atoms : Atoms)
    (cutoff_squared prefactor argumentfactor : Q) (i j k : Z) : py ndarray unit :=
  for_each (range (len_atoms atoms)) (fun a =>
    match positions atoms !! Z.to_nat a with
    | Some position =>
        add_atom_density cutoff_squared prefactor argumentfactor i j k position
    | None => raise (IndexError "index out of bounds")
    end).

(** The body of the innermost loop, lines 248-290. *)
Definition grid_point (atoms : Atoms) (grid : Z * Z * Z) (voxel : Cell)
    (cutoff cutoff_squared prefactor argumentfactor : Q) (i j k : Z)
  : py ndarray unit :=
  set_grid_coordinate atoms grid voxel i j k ;;
  indices_nogrid <- query_neighbors atoms cutoff i j k ;;
  accumulate_density atoms cutoff_squared prefactor argumentfactor i j k.

(** Lines 245-247: k outermost, i innermost. *)
Definition grid_loop (atoms : Atoms) (grid : Z * Z * Z) (voxel : Cell)
    (cutoff cutoff_squared prefactor argumentfactor : Q) : py ndarray unit :=
  let '(nx, ny, nz) := grid in
  for_each (range nz) (fun k =>
    for_each (range ny) (fun j =>
      for_each (range nx) (fun i =>
        grid_point atoms grid voxel cutoff cutoff_squared prefactor
                   argumentfactor i j k))).

Definition kernel_prefactor (sigma : Q) : Q := (1 / (sigma * np_sqrt_2pi) ^ 3)%Q.
(** Line 242, [1.0 / (2.0 * sigma * sigma)]. A sigma found in the parameters
    at entry is the caller's Python float, and Python's float division raises
    [ZeroDivisionError] on a zero divisor; a sigma derived in this call is a
    numpy float, whose division does not raise. *)
Definition kernel_argumentfactor (python_float : bool) (sigma : Q) : result Q :=
  if python_float && is_zero (2 * sigma * sigma)%Q then
    Raise (ZeroDivisionError "float division by zero")
  else Ok (1 / (2 * sigma * sigma))%Q.

(** Runs a computation on a local array: the array is dropped when it
    raises, and handed to the continuation when it returns. *)
Definition with_local {S A} (a : ndarray) (m : py ndarray A) : py S (A * ndarray) :=
  fun s => match m a with
           | (Ok x, a') => (Ok (x, a'), s)
           | (Raise e, _) => (Raise e, s)
           end.

Definition __calculate_python (atoms : Atoms) (grid : Z * Z * Z)
  : py AtomicDensity RetVal :=
  let '(nx, ny, nz) := grid in
  let voxel := voxel_of (cell atoms) (nx, ny, nz) in
  gaussian_descriptors_np <- lift_result (np_zeros [nx; ny; nz; 4]) ;;
  self <- get_state ;;
  let sigma_at_entry := atomic_density_sigma (parameters self) in
  (match sigma_at_entry with
   | None => modify (sigma_default atoms (nx, ny, nz))
   | Some _ => ret tt
   end) ;;
  self <- get_state ;;
  sigma <- match atomic_density_sigma (parameters self) with
           | Some s => ret s
           | None => raise (TypeError "unsupported operand type(s) for *")
           end ;;
  let cutoff := atomic_density_cutoff (parameters self) in
  let cutoff_squared := (cutoff * cutoff)%Q in
  let prefactor := kernel_prefactor sigma in
  argumentfactor <- lift_result
    (kernel_argumentfactor
       match sigma_at_entry with Some _ => true | None => false end sigma) ;;
  out <- with_local gaussian_descriptors_np
           (grid_loop atoms (nx, ny, nz) voxel cutoff cutoff_squared prefactor
                      argumentfactor) ;;
  ret (RetArray (snd out)).

(** [_calculate]: the dispatch on the configured path. *)
Definition _calculate (atoms : Atoms) (grid : Z * Z * Z)
    (use_fp64 return_directly : bool) : py AtomicDensity RetVal :=
  self <- get_state ;;
  if configuration_lammps (parameters self) then
    __calculate_lammps atoms grid use_fp64 return_directly
  else
    __calculate_python atoms grid.

End Calculators.

(** ** Unit conversion *)

(** The values a caller can pass for a unit argument. *)
Inductive PyValue : Type :=
| PyNone
| PyStr (s : string)
| PyInt (n : Z).

(** [x == "None"]. *)
Definition eq_str (x : PyValue) (s : string) : bool :=
  match x with
  | PyStr t => String.eqb t s
  | _ => false
  end.

(** [x is None]. *)
Definition is_None (x : PyValue) : bool :=
  match x with
  | PyNone => true
  | _ => false
  end.

Definition unsupported_unit : PyExc :=
  Exception "Unsupported unit for Gaussian descriptors.".

Definition convert_units (array : ndarray) (in_units : PyValue) : result ndarray :=
  if eq_str in_units "None" || is_None in_units then Ok array
  else Raise unsupported_unit.

Definition backconvert_units (array : ndarray) (out_units : PyValue) : result ndarray :=
  if eq_str out_units "None" then Ok array
  else Raise unsupported_unit.

(** ** Feed-forward network construction *)

(** [params.network]: the object the network keeps a reference to. *)
Record NetworkParams : Type := mk_network_params {
  nn_type : string;
  layer_sizes : list Z;
  layer_activations : list string;
  loss_function_type : string
}.

Record NetParameters : Type := mk_net_parameters {
  network : NetworkParams;
  use_gpu : bool;
  use_horovod : bool;
  mini_batch_size : Z
}.

Inductive ActivationKind : Type := Sigmoid | ReLU | LeakyReLU | Tanh.

(** [self.activation_mappings[name]]; [None] stands for [KeyError]. *)
Definition activation_mappings (name : string) : option ActivationKind :=
  if String.eqb name "Sigmoid" then Some Sigmoid
  else if String.eqb name "ReLU" then Some ReLU
  else if String.eqb name "LeakyReLU" then Some LeakyReLU
  else if String.eqb name "Tanh" then Some Tanh
  else None.

Inductive Layer : Type :=
| Linear (n_in n_out : Z)
| Activation (kind : ActivationKind).

(** The attributes of the network object the constructor computes with.
    [net_params] is the shared [params.network] object ([self.params]): what
    the constructor does to it is seen by every holder of the parameters.
    [loss_is_mse] records that [self.loss_func] has been bound, [on_cuda]
    that [self.to('cuda')] has run. The attributes that are only copied
    ([use_horovod], [mini_batch_size]) and the seeding of torch are left out. *)
Record Net : Type := mk_net {
  net_params : NetworkParams;
  number_of_layers : Z;
  layers : list Layer;
  loss_is_mse : bool;
  on_cuda : bool
}.

Definition set_layer_activations (acts : list string) (n : Net) : Net :=
  mk_net (mk_network_params (nn_type (net_params n)) (layer_sizes (net_params n))
            acts (loss_function_type (net_params n)))
         (number_of_layers n) (layers n) (loss_is_mse n) (on_cuda n).

Definition append_layer (l : Layer) (n : Net) : Net :=
  mk_net (net_params n) (number_of_layers n) (layers n ++ [l]) (loss_is_mse n)
         (on_cuda n).

Definition to_cuda (n : Net) : Net :=
  mk_net (net_params n) (number_of_layers n) (layers n) (loss_is_mse n) true.

(** What torch raises when it refuses to build or to move a module: a
    [RuntimeError] (a negative size, a size that cannot be allocated, no
    driver) or an [AssertionError] (a build without CUDA). *)
Inductive TorchError : Type :=
| TorchRuntimeError (msg : string)
| TorchAssertionError (msg : string).

Definition torch_exception (e : TorchError) : PyExc :=
  match e with
  | TorchRuntimeError msg => RuntimeError msg
  | TorchAssertionError msg => AssertionError msg
  end.

(** The two calls into torch that can fail during construction.
    [nn_Linear n_in n_out] is [nn.Linear(n_in, n_out)] and [module_to_cuda]
    is [self.to('cuda')]; [None] stands for a call that returns. *)
Class Torch : Type := {
  nn_Linear : Z -> Z -> option TorchError;
  module_to_cuda : option TorchError
}.

(** [len(l)]. *)
Definition len {A} (l : list A) : Z := Z.of_nat (length l).

(** [l *= n] on a list: [n] copies, none when [n <= 0]. *)
Definition list_imul {A} (l : list A) (n : Z) : list A :=
  concat (repeat l (Z.to_nat n)).

(** [l[i]] for [i >= 0]. *)
Definition list_item {S A} (l : list A) (i : Z) : py S A :=
  match l !! Z.to_nat i with
  | Some x => ret x
  | None => raise (IndexError "list index out of range")
  end.

(** [Network.__init__]. *)
Definition Network_init (p : NetParameters) : py Net unit :=
  put_state (mk_net (network p) (len (layer_sizes (network p)) - 1) [] false false) ;;
  if String.eqb (loss_function_type (network p)) "mse" then
    modify (fun n => mk_net (net_params n) (number_of_layers n) (layers n) true
                            (on_cuda n))
  else raise (Exception "Unsupported loss function.").

(** [nn.Linear(n_in, n_out)]. *)
Definition new_Linear {torch : Torch} {S} (n_in n_out : Z) : py S Layer :=
  match nn_Linear n_in n_out with
  | Some e => raise (torch_exception e)
  | None => ret (Linear n_in n_out)
  end.

(** [self.to('cuda')]. *)
Definition move_to_cuda {torch : Torch} : py Net unit :=
  match module_to_cuda with
  | Some e => raise (torch_exception e)
  | None => modify to_cuda
  end.

(** One turn of the loop of lines 216-223. *)
Definition add_layer {torch : Torch} (i : Z) : py Net unit :=
  self <- get_state ;;
  n_in <- list_item (layer_sizes (net_params self)) i ;;
  n_out <- list_item (layer_sizes (net_params self)) (i + 1) ;;
  linear <- new_Linear n_in n_out ;;
  modify (append_layer linear) ;;
  name <- list_item (layer_activations (net_params self)) i ;;
  match activation_mappings name with
  | Some kind => modify (append_layer (Activation kind))
  | None => raise (Exception "Invalid activation type seleceted.")
  end.

Definition not_enough : PyExc := Exception "Not enough activation layers provided.".
Definition too_many : PyExc := Exception "Too many activation layers provided.".

(** [FeedForwardNet.__init__]. *)
Definition FeedForwardNet_init {torch : Torch} (p : NetParameters) : py Net unit :=
  Network_init p ;;
  self <- get_state ;;
  (if len (layer_activations (net_params self)) =? 1 then
     modify (set_layer_activations
               (list_imul (layer_activations (net_params self))
                          (number_of_layers self)))
   else ret tt) ;;
  self <- get_state ;;
  if len (layer_activations (net_params self)) <? number_of_layers self then
    raise not_enough
  else if len (layer_activations (net_params self)) >? number_of_layers self then
    raise too_many
  else
    for_each (range (number_of_layers self)) add_layer ;;
    if use_gpu p then move_to_cuda else ret tt.

(** The object before [__init__] has run. *)
Definition blank_net : Net :=
  mk_net (mk_network_params "" [] [] "") 0 [] false false.

(** ** Predicates and reference definitions used by the statements *)

(** GridSpec invariant: every dimension is positive. *)
Definition valid_grid (grid : Z * Z * Z) : Prop :=
  let '(nx, ny, nz) := grid in 0 < nx /\ 0 < ny /\ 0 < nz.

(** (i, j, k) is a grid index of [grid]. *)
Definition valid_index (grid : Z * Z * Z) (i j k : Z) : Prop :=
  let '(nx, ny, nz) := grid in
  0 <= i < nx /\ 0 <= j < ny /\ 0 <= k < nz.

(** A freshly allocated (C-ordered, unsliced) array of shape [sh]. *)
Definition dense (a : ndarray) (sh : list Z) : Prop :=
  shape a = sh /\ strides a = c_strides sh /\ offset a = 0 /\
  Z.of_nat (length (data a)) = prod_shape sh.

(** The engine handed back a buffer for the whole grid, seven columns wide. *)
Definition full_grid_output (out : EngineOutput) (grid : Z * Z * Z) : Prop :=
  let '(nx, ny, nz) := grid in
  nrows_ggrid out * ncols_ggrid out = nz * ny * nx * 7 /\
  Z.of_nat (length (payload out)) = nz * ny * nx * 7.

(** The native flat index of the spec, section 8. *)
Definition native_flat_index (grid : Z * Z * Z) (x y z c : Z) : Z :=
  let '(nx, ny, nz) := grid in
  z * ny * nx * 7 + y * nx * 7 + x * 7 + c.

(** The kernel contract of the spec, sections 4.2 and 4.3: the squared
    Euclidean norm of the displacement, and the contribution it gates. *)
Definition spec_distance_squared (p q : vec3) : Q :=
  let '(p0, p1, p2) := p in
  let '(q0, q1, q2) := q in
  ((p0 - q0) * (p0 - q0) + (p1 - q1) * (p1 - q1) + (p2 - q2) * (p2 - q2))%Q.

Definition spec_contribution `{External} (cutoff_squared prefactor argumentfactor : Q)
    (p q : vec3) : Q :=
  if Qltb (spec_distance_squared p q) cutoff_squared then
    (prefactor * np_exp (- spec_distance_squared p q * argumentfactor))%Q
  else 0%Q.

(** The triclinic grid coordinate of the spec, section 4.1. *)
Definition spec_triclinic_coordinate (c : Cell) (grid : Z * Z * Z) (i j k : Z) : vec3 :=
  let '(nx, ny, nz) := grid in
  ((int_div i nx * cell_at c 0 0 + int_div j ny * cell_at c 1 0
    + int_div k nz * cell_at c 2 0)%Q,
   (int_div j ny * cell_at c 1 1 + int_div k nz * cell_at c 2 1)%Q,
   (int_div k nz * cell_at c 2 2)%Q).

(** ** Intermediate values of the runs *)

(** The vector the coordinate step (lines 252-266) stores in channels 0..2. *)
Definition stored_coordinate (atoms : Atoms) (grid : Z * Z * Z) (voxel : Cell)
    (i j k : Z) : vec3 :=
  let '(nx, ny, nz) := grid in
  if orthorhombic (cell atoms) then vec_scale_by_index (np_diag voxel) i j k
  else
    ((int_div i nx * cell_at (cell atoms) 0 0 + int_div j ny * cell_at (cell atoms) 1 0
      + int_div k nz * cell_at (cell atoms) 2 0)%Q,
     (int_div j ny * cell_at (cell atoms) 1 1 + int_div k nz * cell_at (cell atoms) 1 2)%Q,
     (int_div k nz * cell_at (cell atoms) 2 2)%Q).

(** Lines 208-214: [reshape((nz, ny, nx, 7))] then [transpose([2, 1, 0, 3])]. *)
Definition reshape_transpose (g : ndarray) (grid : Z * Z * Z) : result ndarray :=
  let '(nx, ny, nz) := grid in
  reshaped <~ reshape g [nz; ny; nx; 7] ;;
  transpose reshaped [2; 1; 0; 3].

(** The array [extract_compute_np] hands back. *)
Definition engine_array (out : EngineOutput) : ndarray :=
  np_from_buffer (payload out) [nrows_ggrid out; ncols_ggrid out].

(** The calculator after the sigma check of the accelerated path (lines
    143-150), and what the engine is then given. *)
Definition lammps_resolved (atoms : Atoms) (grid : Z * Z * Z) (self : AtomicDensity)
  : AtomicDensity :=
  match atomic_density_sigma (parameters self) with
  | None => sigma_default atoms grid (set_grid_dimensions grid self)
  | Some _ => self
  end.

Definition lammps_input (grid : Z * Z * Z) (use_fp64 : bool) (self : AtomicDensity)
  : EngineInput :=
  mk_engine_input (atomic_density_sigma (parameters self))
    (atomic_density_cutoff (parameters self)) grid
    (if configuration_mpi (parameters self) then
       if use_z_splitting (parameters self) then "in.ggrid.python"
       else "in.ggrid_defaultproc.python"
     else "in.ggrid_defaultproc.python")
    use_fp64.

(** The shared parameters after the sigma check of either path. *)
Definition resolved_parameters (atoms : Atoms) (grid : Z * Z * Z) (p : Parameters)
  : Parameters :=
  match atomic_density_sigma p with
  | None => set_sigma (get_optimal_sigma (voxel_of (cell atoms) grid)) p
  | Some _ => p
  end.

(** The flat position of a full index in a dense 4D array. *)
Definition pos4 (n1 n2 n3 i j k c : Z) : Z :=
  i * (n1 * (n2 * n3)) + j * (n2 * n3) + k * n3 + c.

(** The array [a] with the buffer cell at flat position [p] overwritten. *)
Definition update_flat (a : ndarray) (p : Z) (v : Q) : ndarray :=
  mk_ndarray (shape a) (strides a) (offset a) (<[Z.to_nat p := v]> (data a)).

(** ** Sample inputs *)

(** Collaborators for running the model: a unit kernel, no neighbours, and
    an engine that fills its buffer with the native flat index of each cell
    (the synthetic buffer of the spec, section 8). *)
Definition sample_external : External := {|
  np_exp := fun _ => 1%Q;
  np_sqrt_2pi := 5 # 2;
  ase_get_neighbors := fun _ _ _ _ => Ok ([], []);
  lammps_run := fun _ inp =>
    let '(nx, ny, nz) := in_grid inp in
    mk_engine_output (nz * ny * nx) 7 (map inject_Z (range (nz * ny * nx * 7)))
|}.

Definition sample_zeros : ndarray := np_from_buffer (replicate 96 0%Q) [2; 3; 4; 4].

Definition cubic_cell : Cell :=
  mk_cell (10, 0, 0)%Q (0, 10, 0)%Q (0, 0, 10)%Q.

(** Lower-triangular, not orthorhombic: cell[2,1] = 1 and cell[1,2] = 0. *)
Definition sheared_cell : Cell :=
  mk_cell (1, 0, 0)%Q (0, 1, 0)%Q (0, 1, 1)%Q.

Definition one_atom (c : Cell) (p : vec3) : Atoms := mk_atoms c ["Al"] [p].

Definition sample_parameters (sigma : option Q) (lammps mpi xyz : bool) : Parameters :=
  mk_parameters sigma 2 xyz false lammps mpi.

Definition sample_calculator (sigma : option Q) (lammps mpi xyz : bool) : AtomicDensity :=
  mk_atomic_density (sample_parameters sigma lammps mpi xyz) None 0.

(** Four layer sizes, hence three layers, and a single activation. *)
Definition sample_net_parameters (acts : list string) : NetParameters :=
  mk_net_parameters (mk_network_params "feed-forward" [2; 3; 4; 1] acts "mse")
    false false 1.

(** Three layers, a single activation and a loss function other than "mse". *)
Definition unsupported_net_parameters : NetParameters :=
  mk_net_parameters (mk_network_params "feed-forward" [2; 3; 4; 1] ["ReLU"] "l1")
    false false 1.

(** ** Further reference definitions *)

(** What the loop of lines 284-290 leaves in the density channel: each atom
    in turn adds its term when its coordinate sum passes the gate. *)
Definition accumulated_density `{External} (cutoff_squared prefactor argumentfactor : Q)
    (point : vec3) (atom_positions : list vec3) (old : Q) : Q :=
  fold_left
    (fun acc position =>
       if Qltb (np_sum_diff position point) cutoff_squared
       then (acc + prefactor * np_exp (- np_sum_diff position point * argumentfactor))%Q
       else acc)
    atom_positions old.

Definition set_contain_xyz (b : bool) (self : AtomicDensity) : AtomicDensity :=
  set_parameters
    (mk_parameters (atomic_density_sigma (parameters self))
       (atomic_density_cutoff (parameters self)) b (use_z_splitting (parameters self))
       (configuration_lammps (parameters self)) (configuration_mpi (parameters self)))
    self.

Definition set_use_z_splitting (b : bool) (self : AtomicDensity) : AtomicDensity :=
  set_parameters
    (mk_parameters (atomic_density_sigma (parameters self))
       (atomic_density_cutoff (parameters self)) (descriptors_contain_xyz (parameters self))
       b (configuration_lammps (parameters self)) (configuration_mpi (parameters self)))
    self.

Definition invalid_activation : PyExc :=
  Exception "Invalid activation type seleceted.".

(** The layers the loop of lines 216-223 appends for the given layer sizes
    and activation names, and the exception that stops it, if any: a linear
    layer torch refuses stops it before anything is appended in that turn, a
    name outside the mapping after the linear layer of that turn. *)
Fixpoint built_layers {torch : Torch} (sizes : list Z) (names : list string)
  : list Layer * option PyExc :=
  match sizes, names with
  | n_in :: ((n_out :: _) as rest), name :: names' =>
      match nn_Linear n_in n_out with
      | Some e => ([], Some (torch_exception e))
      | None =>
          match activation_mappings name with
          | Some kind =>
              let '(more, stopped) := built_layers rest names' in
              (Linear n_in n_out :: Activation kind :: more, stopped)
          | None => ([Linear n_in n_out], Some invalid_activation)
          end
      end
  | _, _ => ([], None)
  end.

(** Every linear layer of the loop can be built: torch accepts each pair of
    consecutive layer sizes. *)
Definition linear_layers_constructible {torch : Torch} (sizes : list Z) : Prop :=
  forall i n_in n_out,
    sizes !! i = Some n_in -> sizes !! S i = Some n_out -> nn_Linear n_in n_out = None.

(** How the constructor ends after its last layer: [self.to('cuda')] when
    the GPU is asked for. *)
Definition cuda_outcome {torch : Torch} (p : NetParameters) : result unit :=
  if use_gpu p then
    match module_to_cuda with
    | Some e => Raise (torch_exception e)
    | None => Ok tt
    end
  else Ok tt.

Definition unsupported_loss : PyExc := Exception "Unsupported loss function.".

(** A torch that builds every linear layer without a negative size, and has
    no GPU to move a module to. *)
Definition sample_torch : Torch := {|
  nn_Linear := fun n_in n_out =>
    if (n_in <? 0) || (n_out <? 0) then
      Some (TorchRuntimeError "Trying to create tensor with negative dimension")
    else None;
  module_to_cuda := Some (TorchAssertionError "Torch not compiled with CUDA enabled")
|}.

Definition append_layers (ls : list Layer) (n : Net) : Net :=
  mk_net (net_params n) (number_of_layers n) (layers n ++ ls) (loss_is_mse n)
         (on_cuda n).

(** The activation list the length check of lines 208-211 sees. *)
Definition checked_activations (p : NetParameters) : list string :=
  let acts := layer_activations (network p) in
  if len acts =? 1 then list_imul acts (len (layer_sizes (network p)) - 1) else acts.

(** ** The transformer's number of heads *)

(** How lines 457-460 of [TransformerNet.__init__] end. The value of
    [Heads] is what [self.params.num_heads], a field of the shared
    parameters, holds afterwards. *)
Inductive HeadsOutcome : Type :=
| Heads (num_heads : Z)
| HeadsIndexError                 (* [layer_sizes[0]] on an empty list *)
| HeadsZeroDivisionError          (* [... % 0] *)
| HeadsStillRunning.              (* the loop has not ended within the fuel *)

(** Python's [a % b] on ints: the sign of the divisor, [None] for
    [ZeroDivisionError]. *)
Definition py_mod (a b : Z) : option Z :=
  if b =? 0 then None else Some (a mod b).

(** [while layer_sizes[0] % num_heads != 0: num_heads += 1], at most [fuel]
    tests of the condition. *)
Fixpoint heads_while (fuel : nat) (d num_heads : Z) : HeadsOutcome :=
  match fuel with
  | O => HeadsStillRunning
  | S fuel' =>
      match py_mod d num_heads with
      | None => HeadsZeroDivisionError
      | Some r =>
          if negb (r =? 0) then heads_while fuel' d (num_heads + 1)
          else Heads num_heads
      end
  end.

(** Lines 457-460: the test, then the loop. *)
Definition adjust_num_heads (fuel : nat) (sizes : list Z) (num_heads : Z)
  : HeadsOutcome :=
  match sizes with
  | [] => HeadsIndexError
  | d :: _ =>
      match py_mod d num_heads with
      | None => HeadsZeroDivisionError
      | Some r =>
          if negb (r =? 0) then heads_while fuel d num_heads
          else Heads num_heads
      end
  end.

(** ** The transformer's attention mask *)

(** A two-dimensional tensor as the list of its rows. *)
Abbreviation tensor2 A := (list (list A)) (only parsing).

(** [t[i, j]], when there is such an entry. *)
Definition entry {A} (t : tensor2 A) (i j : nat) : option A :=
  match t !! i with
  | Some row => row !! j
  | None => None
  end.

(** The float entries of a mask: a finite value or [float('-inf')]. *)
Inductive MaskEntry : Type :=
| MaskFloat (x : Q)
| MinusInfinity.

(** [torch.ones(n, m)]. *)
Definition torch_ones (n m : Z) : tensor2 Z :=
  replicate (Z.to_nat n) (replicate (Z.to_nat m) 1).

(** [torch.triu(t)]: the entries below the diagonal become 0. *)
Definition torch_triu (t : tensor2 Z) : tensor2 Z :=
  imap (fun i row => imap (fun j x => if (j <? i)%nat then 0 else x) row) t.

(** [t == v] on an integer tensor. *)
Definition tensor_eq (t : tensor2 Z) (v : Z) : tensor2 bool :=
  fmap (fmap (M := list) (fun x => x =? v)) t.

(** [t == v] on a boolean tensor: [True] counts as 1 and [False] as 0. *)
Definition bool_tensor_eq (t : tensor2 bool) (v : Z) : tensor2 bool :=
  fmap (fmap (M := list) (fun b : bool => (if b then 1 else 0) =? v)) t.

(** [t.transpose(0, 1)]: as many rows as [t] has columns. *)
Definition transpose01 {A} (d : A) (t : tensor2 A) : tensor2 A :=
  match t with
  | [] => []
  | row :: _ => fmap (fun i => fmap (fun r => nth i r d) t) (seq 0 (length row))
  end.

(** [t.float()] on a boolean tensor. *)
Definition tensor_float (t : tensor2 bool) : tensor2 MaskEntry :=
  fmap (fmap (M := list) (fun b : bool => MaskFloat (if b then 1 else 0))) t.

(** [t.masked_fill(m, v)]: [v] where [m] holds, [t] elsewhere. *)
Definition masked_fill (t : tensor2 MaskEntry) (m : tensor2 bool) (v : MaskEntry)
  : tensor2 MaskEntry :=
  zip_with (zip_with (fun x (b : bool) => if b then v else x)) t m.

(** [TransformerNet.generate_square_subsequent_mask]. *)
Definition generate_square_subsequent_mask (size : Z) : tensor2 MaskEntry :=
  let mask := transpose01 false (tensor_eq (torch_triu (torch_ones size size)) 1) in
  masked_fill
    (masked_fill (tensor_float mask) (bool_tensor_eq mask 0) MinusInfinity)
    (bool_tensor_eq mask 1) (MaskFloat 0).

(** ** The positional encoding's columns *)

Definition inconsistent_bounds : PyExc :=
  RuntimeError "upper bound and larger bound inconsistent with step sign".

(** [torch.arange(start, stop, step)] for a positive step: the values
    start, start + step, ... below stop; torch refuses a stop below the
    start. *)
Definition torch_arange (start stop step : Z) : result (list Z) :=
  if stop <? start then Raise inconsistent_bounds
  else Ok (filter (fun x => (x - start) mod step = 0) (seqZ start (stop - start))).

(** The columns [start::step] selects in a row of [width] columns. *)
Definition slice_columns (start step width : Z) : list Z :=
  filter (fun j => start <= j /\ (j - start) mod step = 0) (seqZ 0 width).

(** Lines 538-539 of [PositionalEncoding.__init__]: the integer arguments
    of the two frequency vectors [div_term] and [div_term2]. *)
Definition div_term_arguments (d_model : Z) : result (list Z) :=
  torch_arange 0 d_model 2.
Definition div_term2_arguments (d_model : Z) : result (list Z) :=
  torch_arange 0 (d_model - 1) 2.

(** ** Further sample inputs *)

(** Collaborators whose engine hands back one row of seven columns whatever
    the grid. *)
Definition one_row_external : External := {|
  np_exp := fun _ => 1%Q;
  np_sqrt_2pi := 5 # 2;
  ase_get_neighbors := fun _ _ _ _ => Ok ([], []);
  lammps_run := fun _ _ => mk_engine_output 1 7 (map inject_Z (range 7))
|}.

Definition two_atoms : Atoms :=
  mk_atoms cubic_cell ["Al"; "Al"] [(3, 0, 0)%Q; (5, 5, 5)%Q].

Definition origin_array : ndarray :=
  np_from_buffer [0%Q; 0%Q; 0%Q; 0%Q] [1; 1; 1; 4].

(** ** The first grid point of the direct path *)


(** What lines 270-282 raise at a grid point of coordinate [point]: the
    exception of the neighbour list when it cannot be built, the [TypeError]
    of [indices()] when it can. *)
Definition first_point_error `{External} (atoms : Atoms) (cutoff : Q) (point : vec3)
  : PyExc :=
  match ase_get_neighbors (cell atoms) (positions atoms ++ [point]) cutoff
          (len_atoms atoms) with
  | Raise e => e
  | Ok _ => not_callable
  end.

(** The run of the direct calculation once the output array [a0] has been
    allocated. *)
Definition python_run `{External} (atoms : Atoms) (grid : Z * Z * Z)
    (self : AtomicDensity) (a0 : ndarray) : result RetVal * AtomicDensity :=
  let loop sigma argumentfactor :=
    grid_loop atoms grid (voxel_of (cell atoms) grid)
      (atomic_density_cutoff (parameters self))
      (atomic_density_cutoff (parameters self) * atomic_density_cutoff (parameters self))%Q
      (kernel_prefactor sigma) argumentfactor a0 in
  let finish (r : result unit * ndarray) : result RetVal :=
    match r with
    | (Ok _, a) => Ok (RetArray a)
    | (Raise e, _) => Raise e
    end in
  match atomic_density_sigma (parameters self) with
  | None =>
      let sigma := get_optimal_sigma (voxel_of (cell atoms) grid) in
      (finish (loop sigma (1 / (2 * sigma * sigma))%Q), sigma_default atoms grid self)
  | Some s =>
      if is_zero (2 * s * s)%Q then
        (Raise (ZeroDivisionError "float division by zero"), self)
      else (finish (loop s (1 / (2 * s * s))%Q), self)
  end.

(* ===================================================================== *)
(** * Part II: properties                                                 *)
(* ===================================================================== *)

(** ** Array lemmas *)

Lemma norm_index_in_range n i : 0 <= i < n -> norm_index n i = Ok i.
Proof.
  intros [Hlo Hhi]. unfold norm_index.
  apply Z.leb_le in Hlo. apply Z.ltb_lt in Hhi. now rewrite Hlo, Hhi.
Qed.

Lemma flat_index_dense4 n0 n1 n2 n3 i j k c :
  0 <= i < n0 -> 0 <= j < n1 -> 0 <= k < n2 -> 0 <= c < n3 ->
  flat_index [n0; n1; n2; n3] (c_strides [n0; n1; n2; n3]) [i; j; k; c]
  = Ok (pos4 n1 n2 n3 i j k c).
Proof.
  intros Hi Hj Hk Hc. cbn [flat_index c_strides prod_shape fold_right].
  rewrite !norm_index_in_range by assumption. cbn [result_bind].
  f_equal. unfold pos4. ring.
Qed.

Lemma pos4_bound n0 n1 n2 n3 i j k c :
  0 <= i < n0 -> 0 <= j < n1 -> 0 <= k < n2 -> 0 <= c < n3 ->
  0 <= pos4 n1 n2 n3 i j k c < n0 * (n1 * (n2 * n3)).
Proof.
  intros Hi Hj Hk Hc. unfold pos4.
  assert (0 <= k * n3 + c < n2 * n3) by nia.
  assert (0 <= j * (n2 * n3) + (k * n3 + c) < n1 * (n2 * n3)) by nia.
  nia.
Qed.

Lemma pos4_channel_inj n1 n2 n3 i j k c i' j' k' c' :
  0 <= c < n3 -> 0 <= c' < n3 ->
  pos4 n1 n2 n3 i j k c = pos4 n1 n2 n3 i' j' k' c' -> c = c'.
Proof.
  intros Hc Hc' Heq.
  assert (forall a b d e, pos4 n1 n2 n3 a b d e
                          = e + (a * (n1 * n2) + b * n2 + d) * n3) as Hpos
    by (intros; unfold pos4; ring).
  rewrite !Hpos in Heq.
  apply (f_equal (fun x => x mod n3)) in Heq.
  rewrite !Z_mod_plus_full, !Z.mod_small in Heq by assumption.
  exact Heq.
Qed.

Lemma prod_shape4 n0 n1 n2 n3 :
  prod_shape [n0; n1; n2; n3] = n0 * (n1 * (n2 * n3)).
Proof. cbn. ring. Qed.

Lemma dense_update_flat a sh p v : dense a sh -> dense (update_flat a p v) sh.
Proof.
  intros (Hs & Ht & Ho & Hl). repeat split; cbn; try assumption.
  now rewrite length_insert.
Qed.

Lemma setitem_dense a n0 n1 n2 n3 i j k c v :
  dense a [n0; n1; n2; n3] ->
  0 <= i < n0 -> 0 <= j < n1 -> 0 <= k < n2 -> 0 <= c < n3 ->
  setitem a [i; j; k; c] v = Ok (update_flat a (pos4 n1 n2 n3 i j k c) v).
Proof.
  intros (Hs & Ht & Ho & Hl) Hi Hj Hk Hc. unfold setitem.
  rewrite Hs, Ht, flat_index_dense4 by assumption. cbn [result_bind].
  rewrite Ho, Z.add_0_l.
  pose proof (pos4_bound n0 n1 n2 n3 i j k c Hi Hj Hk Hc) as Hb.
  rewrite prod_shape4 in Hl.
  destruct (Nat.ltb_spec (Z.to_nat (pos4 n1 n2 n3 i j k c)) (length (data a))) as [_ | Hge].
  - unfold update_flat. now rewrite Hs, Ht, Ho.
  - exfalso. lia.
Qed.

Lemma getitem_dense a n0 n1 n2 n3 i j k c :
  dense a [n0; n1; n2; n3] ->
  0 <= i < n0 -> 0 <= j < n1 -> 0 <= k < n2 -> 0 <= c < n3 ->
  exists v, data a !! Z.to_nat (pos4 n1 n2 n3 i j k c) = Some v
            /\ getitem a [i; j; k; c] = Ok v.
Proof.
  intros (Hs & Ht & Ho & Hl) Hi Hj Hk Hc. unfold getitem.
  rewrite Hs, Ht, flat_index_dense4 by assumption. cbn [result_bind].
  rewrite Ho, Z.add_0_l.
  pose proof (pos4_bound n0 n1 n2 n3 i j k c Hi Hj Hk Hc) as Hb.
  rewrite prod_shape4 in Hl.
  destruct (data a !! Z.to_nat (pos4 n1 n2 n3 i j k c)) as [v |] eqn:Hv.
  - now exists v.
  - apply lookup_ge_None in Hv. exfalso. lia.
Qed.

(** Reading a dense array after a write: the written value at the written
    index, the old content at any index of another channel. *)
Lemma getitem_update_flat_same a n0 n1 n2 n3 i j k c v :
  dense a [n0; n1; n2; n3] ->
  0 <= i < n0 -> 0 <= j < n1 -> 0 <= k < n2 -> 0 <= c < n3 ->
  getitem (update_flat a (pos4 n1 n2 n3 i j k c) v) [i; j; k; c] = Ok v.
Proof.
  intros (Hs & Ht & Ho & Hl) Hi Hj Hk Hc.
  unfold getitem. cbn [shape strides offset data update_flat].
  rewrite Hs, Ht, flat_index_dense4 by assumption. cbn [result_bind].
  rewrite Ho, Z.add_0_l.
  pose proof (pos4_bound n0 n1 n2 n3 i j k c Hi Hj Hk Hc) as Hb.
  rewrite prod_shape4 in Hl.
  rewrite list_lookup_insert_eq by lia. reflexivity.
Qed.

Lemma getitem_update_flat_other a n0 n1 n2 n3 i j k c i' j' k' c' v :
  dense a [n0; n1; n2; n3] ->
  0 <= i < n0 -> 0 <= j < n1 -> 0 <= k < n2 -> 0 <= c < n3 ->
  0 <= i' < n0 -> 0 <= j' < n1 -> 0 <= k' < n2 -> 0 <= c' < n3 ->
  c <> c' ->
  getitem (update_flat a (pos4 n1 n2 n3 i j k c) v) [i'; j'; k'; c']
  = getitem a [i'; j'; k'; c'].
Proof.
  intros (Hs & Ht & Ho & Hl) Hi Hj Hk Hc Hi' Hj' Hk' Hc' Hne.
  unfold getitem. cbn [shape strides offset data update_flat].
  rewrite Hs, Ht, flat_index_dense4 by assumption. cbn [result_bind].
  rewrite Ho, Z.add_0_l.
  pose proof (pos4_bound n0 n1 n2 n3 i j k c Hi Hj Hk Hc) as Hb.
  pose proof (pos4_bound n0 n1 n2 n3 i' j' k' c' Hi' Hj' Hk' Hc') as Hb'.
  rewrite list_lookup_insert_ne; [reflexivity |].
  intros Heq. apply Hne.
  apply (pos4_channel_inj n1 n2 n3 i j k c i' j' k' c'); [assumption .. | lia].
Qed.

Lemma pos4_inj n1 n2 n3 i j k c i' j' k' c' :
  0 <= j < n1 -> 0 <= k < n2 -> 0 <= c < n3 ->
  0 <= j' < n1 -> 0 <= k' < n2 -> 0 <= c' < n3 ->
  pos4 n1 n2 n3 i j k c = pos4 n1 n2 n3 i' j' k' c' ->
  i = i' /\ j = j' /\ k = k' /\ c = c'.
Proof.
  intros Hj Hk Hc Hj' Hk' Hc' Heq.
  assert (c = c') as <- by (eapply pos4_channel_inj; eassumption).
  assert (forall a b d, pos4 n1 n2 n3 a b d c = c + (d + (b + a * n1) * n2) * n3) as Hpos
    by (intros; unfold pos4; ring).
  rewrite !Hpos in Heq.
  assert (k + (j + i * n1) * n2 = k' + (j' + i' * n1) * n2) as Hk2 by nia.
  assert (k = k') as <-.
  { apply (f_equal (fun x => x mod n2)) in Hk2.
    rewrite !Z_mod_plus_full, !Z.mod_small in Hk2 by assumption. exact Hk2. }
  assert (j + i * n1 = j' + i' * n1) as Hj2 by nia.
  assert (j = j') as <-.
  { apply (f_equal (fun x => x mod n1)) in Hj2.
    rewrite !Z_mod_plus_full, !Z.mod_small in Hj2 by assumption. exact Hj2. }
  assert (i = i') by nia. now subst.
Qed.

Lemma getitem_update_flat_elsewhere a n0 n1 n2 n3 i j k c i' j' k' c' v :
  dense a [n0; n1; n2; n3] ->
  0 <= i < n0 -> 0 <= j < n1 -> 0 <= k < n2 -> 0 <= c < n3 ->
  0 <= i' < n0 -> 0 <= j' < n1 -> 0 <= k' < n2 -> 0 <= c' < n3 ->
  (i, j, k) <> (i', j', k') ->
  getitem (update_flat a (pos4 n1 n2 n3 i j k c) v) [i'; j'; k'; c']
  = getitem a [i'; j'; k'; c'].
Proof.
  intros (Hs & Ht & Ho & Hl) Hi Hj Hk Hc Hi' Hj' Hk' Hc' Hne.
  unfold getitem. cbn [shape strides offset data update_flat].
  rewrite Hs, Ht, flat_index_dense4 by assumption. cbn [result_bind].
  rewrite Ho, Z.add_0_l.
  pose proof (pos4_bound n0 n1 n2 n3 i j k c Hi Hj Hk Hc) as Hb.
  pose proof (pos4_bound n0 n1 n2 n3 i' j' k' c' Hi' Hj' Hk' Hc') as Hb'.
  rewrite list_lookup_insert_ne; [reflexivity |].
  intros Heq. apply Hne.
  destruct (pos4_inj n1 n2 n3 i j k c i' j' k' c') as (-> & -> & -> & _);
    [assumption .. | lia | reflexivity].
Qed.

Lemma set_item_dense a n0 n1 n2 n3 i j k c v :
  dense a [n0; n1; n2; n3] ->
  0 <= i < n0 -> 0 <= j < n1 -> 0 <= k < n2 -> 0 <= c < n3 ->
  set_item [i; j; k; c] v a = (Ok tt, update_flat a (pos4 n1 n2 n3 i j k c) v).
Proof.
  intros. unfold set_item. now erewrite setitem_dense by eassumption.
Qed.

Lemma np_zeros_dense sh a : np_zeros sh = Ok a -> dense a sh.
Proof.
  unfold np_zeros. destruct (forallb _ sh) eqn:Hnn; [| discriminate].
  intros [= <-]. repeat split; cbn.
  rewrite length_replicate.
  assert (0 <= prod_shape sh); [| lia].
  clear -Hnn. induction sh as [| n sh IH]; cbn in *; [lia |].
  apply andb_true_iff in Hnn as [Hn Hsh]. apply Z.leb_le in Hn.
  specialize (IH Hsh). unfold prod_shape in IH. nia.
Qed.

(** ** Grid geometry *)

(** Writing the three coordinate channels of a grid point succeeds on a dense
    array, is read back as written, and leaves every density cell alone. *)
Lemma set_xyz_dense a nx ny nz i j k v :
  dense a [nx; ny; nz; 4] ->
  0 <= i < nx -> 0 <= j < ny -> 0 <= k < nz ->
  exists a',
    set_xyz i j k v a = (Ok tt, a') /\
    dense a' [nx; ny; nz; 4] /\
    get_xyz i j k a' = (Ok v, a') /\
    (forall i' j' k', 0 <= i' < nx -> 0 <= j' < ny -> 0 <= k' < nz ->
       getitem a' [i'; j'; k'; 3] = getitem a [i'; j'; k'; 3]).
Proof.
  intros Hd Hi Hj Hk. destruct v as [[x y] z].
  set (a1 := update_flat a (pos4 ny nz 4 i j k 0) x).
  set (a2 := update_flat a1 (pos4 ny nz 4 i j k 1) y).
  set (a3 := update_flat a2 (pos4 ny nz 4 i j k 2) z).
  assert (dense a1 [nx; ny; nz; 4]) as Hd1 by now apply dense_update_flat.
  assert (dense a2 [nx; ny; nz; 4]) as Hd2 by now apply dense_update_flat.
  assert (dense a3 [nx; ny; nz; 4]) as Hd3 by now apply dense_update_flat.
  exists a3. repeat split.
  - unfold set_xyz, bind.
    rewrite (set_item_dense a nx ny nz 4) by (assumption || lia).
    rewrite (set_item_dense a1 nx ny nz 4) by (assumption || lia).
    rewrite (set_item_dense a2 nx ny nz 4) by (assumption || lia).
    reflexivity.
  - apply Hd3.
  - apply Hd3.
  - apply Hd3.
  - apply Hd3.
  - unfold get_xyz, bind, get_item, ret.
    assert (getitem a3 [i; j; k; 0] = Ok x) as ->.
    { unfold a3. rewrite (getitem_update_flat_other a2 nx ny nz 4) by (assumption || lia).
      unfold a2. rewrite (getitem_update_flat_other a1 nx ny nz 4) by (assumption || lia).
      apply (getitem_update_flat_same a nx ny nz 4); assumption || lia. }
    assert (getitem a3 [i; j; k; 1] = Ok y) as ->.
    { unfold a3. rewrite (getitem_update_flat_other a2 nx ny nz 4) by (assumption || lia).
      apply (getitem_update_flat_same a1 nx ny nz 4); assumption || lia. }
    assert (getitem a3 [i; j; k; 2] = Ok z) as ->.
    { apply (getitem_update_flat_same a2 nx ny nz 4); assumption || lia. }
    reflexivity.
  - intros i' j' k' Hi' Hj' Hk'. unfold a3, a2, a1.
    rewrite (getitem_update_flat_other _ nx ny nz 4) by (assumption || lia).
    rewrite (getitem_update_flat_other _ nx ny nz 4) by (assumption || lia).
    rewrite (getitem_update_flat_other _ nx ny nz 4) by (assumption || lia).
    reflexivity.
Qed.

(** The diagonal of the voxel: each diagonal entry of the cell over the
    grid dimension of its row. *)
Lemma np_diag_voxel c nx ny nz :
  np_diag (voxel_of c (nx, ny, nz))
  = ((cell_at c 0 0 / inject_Z nx)%Q, (cell_at c 1 1 / inject_Z ny)%Q,
     (cell_at c 2 2 / inject_Z nz)%Q).
Proof.
  destruct c as [[[a00 a01] a02] [[a10 a11] a12] [[a20 a21] a22]]. reflexivity.
Qed.

Lemma set_grid_coordinate_stores atoms grid voxel i j k :
  set_grid_coordinate atoms grid voxel i j k
  = set_xyz i j k (stored_coordinate atoms grid voxel i j k).
Proof.
  destruct grid as [[nx ny] nz]. unfold set_grid_coordinate, stored_coordinate.
  destruct (orthorhombic (cell atoms)); reflexivity.
Qed.

(** ** The direct path stops at its first grid point *)

Lemma range_pos n : 0 < n -> exists rest, range n = 0 :: rest.
Proof.
  intros Hn. unfold range.
  destruct (Z.to_nat n) as [| m] eqn:Hm; [lia |].
  cbn. eexists. reflexivity.
Qed.

Lemma for_each_raise_first {S A} (x : A) rest (body : A -> py S unit) s e s' :
  body x s = (Raise e, s') -> for_each (x :: rest) body s = (Raise e, s').
Proof. intros Hb. cbn. unfold bind. now rewrite Hb. Qed.

Lemma np_zeros_grid nx ny nz :
  0 <= nx -> 0 <= ny -> 0 <= nz ->
  exists a0, np_zeros [nx; ny; nz; 4] = Ok a0 /\ dense a0 [nx; ny; nz; 4] /\
    (forall i j k, 0 <= i < nx -> 0 <= j < ny -> 0 <= k < nz ->
       getitem a0 [i; j; k; 3] = Ok 0%Q).
Proof.
  intros Hx Hy Hz.
  assert (forallb (fun n => 0 <=? n) [nx; ny; nz; 4] = true) as Hnn.
  { cbn. apply Z.leb_le in Hx, Hy, Hz. now rewrite Hx, Hy, Hz. }
  unfold np_zeros. rewrite Hnn. eexists. split; [reflexivity |].
  assert (dense (mk_ndarray [nx; ny; nz; 4] (c_strides [nx; ny; nz; 4]) 0
                   (replicate (Z.to_nat (prod_shape [nx; ny; nz; 4])) 0%Q))
                [nx; ny; nz; 4]) as Hd.
  { apply np_zeros_dense. unfold np_zeros. now rewrite Hnn. }
  split; [exact Hd |].
  intros i j k Hi Hj Hk.
  destruct (getitem_dense _ nx ny nz 4 i j k 3 Hd Hi Hj Hk ltac:(lia))
    as (v & Hv & Hget).
  rewrite Hget. cbn [data] in Hv. apply lookup_replicate in Hv as [-> _].
  reflexivity.
Qed.

Lemma np_zeros_getitem nx ny nz a0 i j k c :
  np_zeros [nx; ny; nz; 4] = Ok a0 ->
  0 <= i < nx -> 0 <= j < ny -> 0 <= k < nz -> 0 <= c < 4 ->
  getitem a0 [i; j; k; c] = Ok 0%Q.
Proof.
  intros Hzeros Hi Hj Hk Hc.
  pose proof (np_zeros_dense _ _ Hzeros) as Hd.
  destruct (getitem_dense _ nx ny nz 4 i j k c Hd Hi Hj Hk Hc) as (v & Hv & Hget).
  rewrite Hget. unfold np_zeros in Hzeros.
  destruct (forallb _ _); [| discriminate].
  injection Hzeros as <-. cbn [data] in Hv.
  apply lookup_replicate in Hv as [-> _]. reflexivity.
Qed.

(** Storing the coordinate of one grid point leaves every cell of every
    other grid point as it was. *)
Lemma set_xyz_elsewhere a a' nx ny nz i j k v i' j' k' c' :
  dense a [nx; ny; nz; 4] ->
  0 <= i < nx -> 0 <= j < ny -> 0 <= k < nz ->
  0 <= i' < nx -> 0 <= j' < ny -> 0 <= k' < nz -> 0 <= c' < 4 ->
  (i, j, k) <> (i', j', k') ->
  set_xyz i j k v a = (Ok tt, a') ->
  getitem a' [i'; j'; k'; c'] = getitem a [i'; j'; k'; c'].
Proof.
  intros Hd Hi Hj Hk Hi' Hj' Hk' Hc' Hne. destruct v as [[x y] z].
  set (a1 := update_flat a (pos4 ny nz 4 i j k 0) x).
  set (a2 := update_flat a1 (pos4 ny nz 4 i j k 1) y).
  assert (dense a1 [nx; ny; nz; 4]) as Hd1 by now apply dense_update_flat.
  assert (dense a2 [nx; ny; nz; 4]) as Hd2 by now apply dense_update_flat.
  unfold set_xyz, bind.
  rewrite (set_item_dense a nx ny nz 4) by (assumption || lia).
  fold a1. rewrite (set_item_dense a1 nx ny nz 4) by (assumption || lia).
  fold a2. rewrite (set_item_dense a2 nx ny nz 4) by (assumption || lia).
  intros [= <-].
  rewrite (getitem_update_flat_elsewhere a2 nx ny nz 4) by (assumption || lia).
  unfold a2.
  rewrite (getitem_update_flat_elsewhere a1 nx ny nz 4) by (assumption || lia).
  unfold a1.
  rewrite (getitem_update_flat_elsewhere a nx ny nz 4) by (assumption || lia).
  reflexivity.
Qed.

Section DirectPath.
Context `{External}.

Lemma calculate_python_run atoms nx ny nz self a0 :
  np_zeros [nx; ny; nz; 4] = Ok a0 ->
  __calculate_python atoms (nx, ny, nz) self = python_run atoms (nx, ny, nz) self a0.
Proof.
  intros Hzeros.
  unfold __calculate_python, python_run, bind, lift_result, get_state, modify.
  rewrite Hzeros.
  destruct (atomic_density_sigma (parameters self)) as [s |] eqn:Hs.
  - unfold ret at 1. rewrite Hs. unfold ret at 1.
    unfold kernel_argumentfactor. cbn [andb].
    destruct (is_zero (2 * s * s)); [reflexivity |].
    unfold with_local.
    destruct (grid_loop _ _ _ _ _ _ _ a0) as [[u | e] a']; reflexivity.
  - unfold sigma_default.
    cbn [parameters set_parameters atomic_density_sigma set_sigma atomic_density_cutoff].
    unfold ret at 1. unfold kernel_argumentfactor. cbn [andb].
    unfold with_local.
    destruct (grid_loop _ _ _ _ _ _ _ a0) as [[u | e] a']; reflexivity.
Qed.

Lemma query_neighbors_raises atoms cutoff nx ny nz i j k a point :
  dense a [nx; ny; nz; 4] ->
  0 <= i < nx -> 0 <= j < ny -> 0 <= k < nz ->
  get_xyz i j k a = (Ok point, a) ->
  query_neighbors atoms cutoff i j k a = (Raise (first_point_error atoms cutoff point), a).
Proof.
  intros Hd Hi Hj Hk Hpoint.
  unfold query_neighbors, first_point_error, bind. rewrite Hpoint.
  unfold lift_result.
  destruct (ase_get_neighbors _ _ _ _) as [[indices offsets] | e]; reflexivity.
Qed.

(** The loops on a grid of positive dimensions: the first grid point stores
    its coordinate and then raises, with every density cell still 0 and
    every coordinate cell of the other grid points still 0. *)
Lemma grid_loop_first_point atoms nx ny nz :
  valid_grid (nx, ny, nz) ->
  exists a0 a1 point,
    np_zeros [nx; ny; nz; 4] = Ok a0 /\
    set_grid_coordinate atoms (nx, ny, nz) (voxel_of (cell atoms) (nx, ny, nz)) 0 0 0 a0
    = (Ok tt, a1) /\
    get_xyz 0 0 0 a1 = (Ok point, a1) /\
    (forall cutoff cutoff_squared prefactor argumentfactor,
       grid_loop atoms (nx, ny, nz) (voxel_of (cell atoms) (nx, ny, nz))
                 cutoff cutoff_squared prefactor argumentfactor a0
       = (Raise (first_point_error atoms cutoff point), a1)) /\
    (forall i j k, valid_index (nx, ny, nz) i j k -> getitem a1 [i; j; k; 3] = Ok 0%Q).
Proof.
  intros (Hx & Hy & Hz).
  destruct (np_zeros_grid nx ny nz) as (a0 & Hzeros & Hd0 & Hzero); try lia.
  set (point := stored_coordinate atoms (nx, ny, nz)
                  (voxel_of (cell atoms) (nx, ny, nz)) 0 0 0).
  destruct (set_xyz_dense a0 nx ny nz 0 0 0 point Hd0)
    as (a1 & Hset & Hd1 & Hget & Hrest); try lia.
  unfold point in Hset. rewrite <- set_grid_coordinate_stores in Hset.
  exists a0, a1, point. split; [exact Hzeros |]. split; [exact Hset |].
  split; [exact Hget |]. split.
  - intros cutoff cutoff_squared prefactor argumentfactor. unfold grid_loop.
    destruct (range_pos nx Hx) as (rx & ->).
    destruct (range_pos ny Hy) as (ry & ->).
    destruct (range_pos nz Hz) as (rz & ->).
    do 3 apply for_each_raise_first.
    unfold grid_point, bind. rewrite Hset.
    rewrite (query_neighbors_raises atoms cutoff nx ny nz 0 0 0 a1 point Hd1)
      by (assumption || lia).
    reflexivity.
  - intros i j k (Hi & Hj & Hk). rewrite Hrest by assumption. now apply Hzero.
Qed.


(** C8 (defect of the code). For an orthorhombic cell and a valid grid index
    (i, j, k), the turn of the loops for (i, j, k) stores, in channels 0..2
    of that grid point, the diagonal of the voxel multiplied componentwise by
    (i, j, k), that is (cell[0,0]/nx * i, cell[1,1]/ny * j, cell[2,2]/nz * k),
    leaves the density channel alone, and then raises at line 282. Because
    of that the direct calculator, started on its array of zeros, raises in
    the turn of (0, 0, 0) and produces no coordinate at all: it returns
    nothing, and at the raise the coordinate channels of every other grid
    point still hold the zeros of the allocation. *)
Theorem orthorhombic_grid_coordinate atoms nx ny nz self i j k :
  orthorhombic (cell atoms) = true ->
  valid_index (nx, ny, nz) i j k ->
  let voxel := voxel_of (cell atoms) (nx, ny, nz) in
  let coordinate := vec_scale_by_index (np_diag voxel) i j k in
  coordinate
  = ((cell_at (cell atoms) 0 0 / inject_Z nx * inject_Z i)%Q,
     (cell_at (cell atoms) 1 1 / inject_Z ny * inject_Z j)%Q,
     (cell_at (cell atoms) 2 2 / inject_Z nz * inject_Z k)%Q) /\
  (forall a cutoff cutoff_squared prefactor argumentfactor,
     dense a [nx; ny; nz; 4] ->
     exists a',
       grid_point atoms (nx, ny, nz) voxel cutoff cutoff_squared prefactor
         argumentfactor i j k a
       = (Raise (first_point_error atoms cutoff coordinate), a') /\
       get_xyz i j k a' = (Ok coordinate, a') /\
       getitem a' [i; j; k; 3] = getitem a [i; j; k; 3]) /\
  (exists e, fst (__calculate_python atoms (nx, ny, nz) self) = Raise e) /\
  ((i, j, k) <> (0, 0, 0) ->
   exists a0 a1,
     np_zeros [nx; ny; nz; 4] = Ok a0 /\
     (forall cutoff cutoff_squared prefactor argumentfactor,
      exists e,
        grid_loop atoms (nx, ny, nz) voxel cutoff cutoff_squared prefactor
          argumentfactor a0
        = (Raise e, a1)) /\
     get_xyz i j k a1 = (Ok (0, 0, 0)%Q, a1)).
Proof.
  intros Hortho (Hi & Hj & Hk) voxel coordinate.
  assert (valid_grid (nx, ny, nz)) as Hgrid by (cbn; lia).
  split; [unfold coordinate, voxel; now rewrite np_diag_voxel |].
  split; [| split].
  - intros a cutoff cutoff_squared prefactor argumentfactor Hd.
    destruct (set_xyz_dense a nx ny nz i j k coordinate Hd Hi Hj Hk)
      as (a' & Hset & Hd' & Hget & Hrest).
    exists a'. split; [| split; [exact Hget | now apply Hrest]].
    unfold grid_point, bind, set_grid_coordinate. rewrite Hortho.
    fold voxel. fold coordinate. rewrite Hset.
    rewrite (query_neighbors_raises atoms cutoff nx ny nz i j k a' coordinate Hd')
      by assumption.
    reflexivity.
  - destruct (grid_loop_first_point atoms nx ny nz Hgrid)
      as (a0 & a1 & point & Hzeros & _ & _ & Hloop & _).
    rewrite (calculate_python_run atoms nx ny nz self a0 Hzeros).
    unfold python_run.
    destruct (atomic_density_sigma (parameters self)) as [s |].
    + destruct (is_zero (2 * s * s)); [eexists; reflexivity |].
      rewrite Hloop. eexists. reflexivity.
    + rewrite Hloop. eexists. reflexivity.
  - intros Hne.
    destruct (grid_loop_first_point atoms nx ny nz Hgrid)
      as (a0 & a1 & point & Hzeros & Hset & _ & Hloop & _).
    exists a0, a1. split; [exact Hzeros |]. split.
    + intros cutoff cutoff_squared prefactor argumentfactor.
      eexists. apply Hloop.
    + rewrite set_grid_coordinate_stores in Hset.
      pose proof (np_zeros_dense _ _ Hzeros) as Hd0.
      assert (forall c, 0 <= c < 4 -> getitem a1 [i; j; k; c] = Ok 0%Q) as Hcell.
      { intros c Hc.
        transitivity (getitem a0 [i; j; k; c]);
          [| now apply (np_zeros_getitem nx ny nz)].
        eapply (set_xyz_elsewhere a0 a1 nx ny nz 0 0 0);
          [exact Hd0 | lia | lia | lia | assumption | assumption | assumption
          | assumption | intros Heq; apply Hne; now rewrite Heq | exact Hset]. }
      unfold get_xyz, bind, get_item, ret.
      rewrite !Hcell by lia. reflexivity.
Qed.

End DirectPath.

(** ** Reordering the engine's buffer *)

Lemma flat_index4 n0 n1 n2 n3 s0 s1 s2 s3 i j k c :
  0 <= i < n0 -> 0 <= j < n1 -> 0 <= k < n2 -> 0 <= c < n3 ->
  flat_index [n0; n1; n2; n3] [s0; s1; s2; s3] [i; j; k; c]
  = Ok (i * s0 + (j * s1 + (k * s2 + (c * s3 + 0)))).
Proof.
  intros Hi Hj Hk Hc. cbn [flat_index].
  rewrite !norm_index_in_range by assumption. reflexivity.
Qed.

Lemma list_Z_eqb_refl l : list_Z_eqb l l = true.
Proof.
  unfold list_Z_eqb. rewrite Nat.eqb_refl. cbn.
  induction l as [| x l IH]; cbn; [reflexivity |].
  now rewrite Z.eqb_refl.
Qed.

Lemma native_flat_index_bound nx ny nz x y z c :
  0 <= x < nx -> 0 <= y < ny -> 0 <= z < nz -> 0 <= c < 7 ->
  0 <= native_flat_index (nx, ny, nz) x y z c < nz * ny * nx * 7.
Proof.
  intros Hx Hy Hz Hc. unfold native_flat_index.
  assert (0 <= x * 7 + c < nx * 7) by lia.
  assert (0 <= y * (nx * 7) + (x * 7 + c) < ny * (nx * 7)) by nia.
  assert (0 <= z * (ny * (nx * 7)) + (y * (nx * 7) + (x * 7 + c)) < nz * (ny * (nx * 7)))
    by nia.
  lia.
Qed.

(** What the two calls produce: a view of the same buffer, of shape
    (nx, ny, nz, 7), whose strides are those of the native layout permuted. *)
Lemma reshape_transpose_view out nx ny nz :
  0 <= nx -> 0 <= ny -> 0 <= nz ->
  full_grid_output out (nx, ny, nz) ->
  reshape_transpose (engine_array out) (nx, ny, nz)
  = Ok (mk_ndarray [nx; ny; nz; 7] [7 * 1; nx * (7 * 1); ny * (nx * (7 * 1)); 1] 0
          (payload out)).
Proof.
  intros Hx Hy Hz [Hrc Hlen].
  unfold reshape_transpose, reshape, fix_unknown_dimension, engine_array, np_from_buffer.
  assert (forallb (fun n => 0 <=? n) [nz; ny; nx; 7] = true) as ->.
  { cbn. apply Z.leb_le in Hx, Hy, Hz. now rewrite Hx, Hy, Hz. }
  assert ((prod_shape [nz; ny; nx; 7] =? size
            (mk_ndarray [nrows_ggrid out; ncols_ggrid out]
               (c_strides [nrows_ggrid out; ncols_ggrid out]) 0 (payload out))) = true) as ->.
  { apply Z.eqb_eq. unfold size. cbn. lia. }
  cbn [result_bind].
  assert (c_contiguous
            (mk_ndarray [nrows_ggrid out; ncols_ggrid out]
               (c_strides [nrows_ggrid out; ncols_ggrid out]) 0 (payload out)) = true) as ->.
  { unfold c_contiguous. cbn [strides shape offset data].
    rewrite list_Z_eqb_refl. cbn [andb]. rewrite Z.eqb_refl. cbn [andb].
    apply Z.eqb_eq. unfold size. cbn. lia. }
  reflexivity.
Qed.


(** ** The accelerated path *)

Section AcceleratedPath.
Context `{External}.

Lemma lammps_resolved_mpi atoms grid self :
  configuration_mpi (parameters (lammps_resolved atoms grid self))
  = configuration_mpi (parameters self).
Proof. unfold lammps_resolved. now destruct (atomic_density_sigma (parameters self)). Qed.

Lemma lammps_resolved_xyz atoms grid self :
  descriptors_contain_xyz (parameters (lammps_resolved atoms grid self))
  = descriptors_contain_xyz (parameters self).
Proof. unfold lammps_resolved. now destruct (atomic_density_sigma (parameters self)). Qed.

(** The run of [__calculate_lammps] with [return_directly] unset, by mode. *)
Lemma calculate_lammps_run atoms nx ny nz use_fp64 self :
  let self1 := lammps_resolved atoms (nx, ny, nz) self in
  let out := lammps_run atoms (lammps_input (nx, ny, nz) use_fp64 self1) in
  let self2 := set_grid_dimensions (nx, ny, nz) self1 in
  __calculate_lammps atoms (nx, ny, nz) use_fp64 false self
  = if configuration_mpi (parameters self) then
      (Ok (RetTuple (engine_array out) (nrows_ggrid out)), set_fingerprint_length 4 self2)
    else
      match reshape_transpose (engine_array out) (nx, ny, nz) with
      | Raise e => (Raise e, self2)
      | Ok full =>
          let start := if descriptors_contain_xyz (parameters self) then 3 else 6 in
          let self3 :=
            set_fingerprint_length
              (if descriptors_contain_xyz (parameters self) then 4 else 1) self2 in
          match slice_channels_from full start with
          | Ok view => (Ok (RetTuple view (nx * ny * nz)), self3)
          | Raise e => (Raise e, self3)
          end
      end.
Proof.
  intros self1 out self2.
  pose proof (lammps_resolved_mpi atoms (nx, ny, nz) self) as Hmpi.
  pose proof (lammps_resolved_xyz atoms (nx, ny, nz) self) as Hxyz.
  assert (__calculate_lammps atoms (nx, ny, nz) use_fp64 false self
          = (let self1 := lammps_resolved atoms (nx, ny, nz) self in
             let out := lammps_run atoms (lammps_input (nx, ny, nz) use_fp64 self1) in
             let self2 := set_grid_dimensions (nx, ny, nz) self1 in
             if configuration_mpi (parameters self1) then
               (Ok (RetTuple (engine_array out) (nrows_ggrid out)),
                set_fingerprint_length 4 self2)
             else
               match reshape (engine_array out) [nz; ny; nx; 7] with
               | Raise e => (Raise e, self2)
               | Ok reshaped =>
                   match transpose reshaped [2; 1; 0; 3] with
                   | Raise e => (Raise e, self2)
                   | Ok full =>
                       if descriptors_contain_xyz (parameters self1) then
                         match slice_channels_from full 3 with
                         | Ok view => (Ok (RetTuple view (nx * ny * nz)),
                                       set_fingerprint_length 4 self2)
                         | Raise e => (Raise e, set_fingerprint_length 4 self2)
                         end
                       else
                         match slice_channels_from full 6 with
                         | Ok view => (Ok (RetTuple view (nx * ny * nz)),
                                       set_fingerprint_length 1 self2)
                         | Raise e => (Raise e, set_fingerprint_length 1 self2)
                         end
                   end
               end)) as ->.
  { unfold __calculate_lammps, lammps_resolved, lammps_input, engine_array, bind,
      get_state, modify, ret, lift_result.
    destruct (atomic_density_sigma (parameters self)) as [s |] eqn:Hs; cbv zeta.
    - destruct (configuration_mpi (parameters self)); [reflexivity |].
      destruct (reshape _ _) as [reshaped | e]; [| reflexivity].
      destruct (transpose _ _) as [full | e]; [| reflexivity].
      destruct (descriptors_contain_xyz (parameters self));
        destruct (slice_channels_from _ _); reflexivity.
    - cbn [parameters sigma_default set_parameters set_grid_dimensions
             configuration_mpi set_sigma descriptors_contain_xyz].
      destruct (configuration_mpi (parameters self)); [reflexivity |].
      destruct (reshape _ _) as [reshaped | e]; [| reflexivity].
      destruct (transpose _ _) as [full | e]; [| reflexivity].
      destruct (descriptors_contain_xyz (parameters self));
        destruct (slice_channels_from _ _); reflexivity. }
  cbv zeta. subst self1 out self2. rewrite Hmpi, Hxyz.
  destruct (configuration_mpi (parameters self)); [reflexivity |].
  unfold reshape_transpose.
  destruct (reshape _ _) as [reshaped | e]; [| reflexivity]. cbn [result_bind].
  destruct (transpose _ _) as [full | e]; [| reflexivity].
  destruct (descriptors_contain_xyz (parameters self)); reflexivity.
Qed.

End AcceleratedPath.

Lemma channel_view_lookup buf nx ny nz start x y z c :
  Z.of_nat (length buf) = nz * ny * nx * 7 ->
  0 <= start ->
  0 <= x < nx -> 0 <= y < ny -> 0 <= z < nz -> 0 <= c < 7 - start ->
  exists v,
    buf !! Z.to_nat (native_flat_index (nx, ny, nz) x y z (c + start)) = Some v /\
    getitem (mk_ndarray [nx; ny; nz; 7 - start]
               [7 * 1; nx * (7 * 1); ny * (nx * (7 * 1)); 1] (0 + start * 1) buf)
            [x; y; z; c] = Ok v.
Proof.
  intros Hlen Hs Hx Hy Hz Hc.
  pose proof (native_flat_index_bound nx ny nz x y z (c + start) Hx Hy Hz ltac:(lia)) as Hb.
  destruct (buf !! Z.to_nat (native_flat_index (nx, ny, nz) x y z (c + start)))
    as [v |] eqn:Hv.
  - exists v. split; [reflexivity |].
    unfold getitem. cbn [shape strides offset data].
    rewrite flat_index4 by assumption. cbn [result_bind].
    replace (0 + start * 1 +
             (x * (7 * 1) + (y * (nx * (7 * 1)) + (z * (ny * (nx * (7 * 1))) + (c * 1 + 0)))))
      with (native_flat_index (nx, ny, nz) x y z (c + start))
      by (unfold native_flat_index; ring).
    now rewrite Hv.
  - apply lookup_ge_None in Hv. exfalso. lia.
Qed.

Section AcceleratedContract.
Context `{External}.

(** C5. Single-process full mode, raw-return flag unset, engine buffer for
    the whole grid: the call returns the pair of a view and nx*ny*nz. With
    "include coordinates" on, the view is the slice from channel 3 of the
    reshaped and transposed buffer, it has 4 channels, and the feature size
    recorded on the calculator is 4; with the flag off, the view is the
    slice from channel 6, it has 1 channel, and the feature size is 1.
    Channel c of the view at (x, y, z) is the buffer element at the native
    flat index of channel c + 3 (respectively c + 6). *)
Theorem calculate_lammps_full_mode atoms nx ny nz use_fp64 self :
  configuration_mpi (parameters self) = false ->
  valid_grid (nx, ny, nz) ->
  (forall inp, in_grid inp = (nx, ny, nz) ->
               full_grid_output (lammps_run atoms inp) (nx, ny, nz)) ->
  let xyz := descriptors_contain_xyz (parameters self) in
  let start := if xyz then 3 else 6 in
  let channels := if xyz then 4 else 1 in
  exists inp full view self',
    __calculate_lammps atoms (nx, ny, nz) use_fp64 false self
    = (Ok (RetTuple view (nx * ny * nz)), self') /\
    reshape_transpose (engine_array (lammps_run atoms inp)) (nx, ny, nz) = Ok full /\
    slice_channels_from full start = Ok view /\
    shape view = [nx; ny; nz; channels] /\
    fingerprint_length self' = channels /\
    forall x y z c,
      valid_index (nx, ny, nz) x y z -> 0 <= c < channels ->
      exists v,
        payload (lammps_run atoms inp)
          !! Z.to_nat (native_flat_index (nx, ny, nz) x y z (c + start)) = Some v /\
        getitem view [x; y; z; c] = Ok v.
Proof.
  intros Hmpi (Hx & Hy & Hz) Hout xyz start channels.
  pose proof (calculate_lammps_run atoms nx ny nz use_fp64 self) as Hrun.
  cbv zeta in Hrun. rewrite Hmpi in Hrun.
  set (inp := lammps_input (nx, ny, nz) use_fp64
                (lammps_resolved atoms (nx, ny, nz) self)) in *.
  specialize (Hout inp eq_refl).
  rewrite (reshape_transpose_view (lammps_run atoms inp) nx ny nz) in Hrun
    by (lia || apply Hout).
  destruct Hout as [Hrc Hlen].
  assert (full_grid_output (lammps_run atoms inp) (nx, ny, nz)) as Hout by now split.
  exists inp. eexists. 
  subst xyz start channels.
  destruct (descriptors_contain_xyz (parameters self)).
  - eexists. eexists. split; [exact Hrun |].
    split; [apply reshape_transpose_view; (lia || apply Hout) |].
    split; [reflexivity |]. split; [reflexivity |]. split; [reflexivity |].
    intros x y z c (Hx' & Hy' & Hz') Hc.
    apply (channel_view_lookup (payload (lammps_run atoms inp)) nx ny nz 3);
      assumption || lia.
  - eexists. eexists. split; [exact Hrun |].
    split; [apply reshape_transpose_view; (lia || apply Hout) |].
    split; [reflexivity |]. split; [reflexivity |]. split; [reflexivity |].
    intros x y z c (Hx' & Hy' & Hz') Hc.
    apply (channel_view_lookup (payload (lammps_run atoms inp)) nx ny nz 6);
      assumption || lia.
Qed.

(** C7, as amended. With the raw-return flag unset the call returns an array
    and a count, and records a feature size. In distributed mode the array
    is the engine's two-dimensional table of rows and columns, the count is
    the engine-reported row count, and the feature size is 4. In every other
    mode (given an engine buffer for the whole grid) the array is
    four-dimensional, of shape (nx, ny, nz, f), the count is nx*ny*nz, and
    the feature size f is 4 with "include coordinates" on and 1 with it off. *)
Theorem calculate_lammps_return_contract atoms nx ny nz use_fp64 self :
  valid_grid (nx, ny, nz) ->
  (configuration_mpi (parameters self) = false ->
   forall inp, in_grid inp = (nx, ny, nz) ->
               full_grid_output (lammps_run atoms inp) (nx, ny, nz)) ->
  exists inp a n self',
    __calculate_lammps atoms (nx, ny, nz) use_fp64 false self = (Ok (RetTuple a n), self') /\
    if configuration_mpi (parameters self) then
      a = engine_array (lammps_run atoms inp) /\ ndim a = 2 /\
      n = nrows_ggrid (lammps_run atoms inp) /\
      fingerprint_length self' = 4
    else
      let f := if descriptors_contain_xyz (parameters self) then 4 else 1 in
      ndim a = 4 /\ shape a = [nx; ny; nz; f] /\
      n = nx * ny * nz /\
      fingerprint_length self' = f.
Proof.
  intros (Hx & Hy & Hz) Hout.
  pose proof (calculate_lammps_run atoms nx ny nz use_fp64 self) as Hrun.
  cbv zeta in Hrun.
  set (inp := lammps_input (nx, ny, nz) use_fp64
                (lammps_resolved atoms (nx, ny, nz) self)) in *.
  exists inp.
  destruct (configuration_mpi (parameters self)).
  - do 3 eexists. split; [exact Hrun |]. repeat split.
  - specialize (Hout eq_refl inp eq_refl).
    rewrite (reshape_transpose_view (lammps_run atoms inp) nx ny nz) in Hrun
      by (lia || apply Hout).
    destruct (descriptors_contain_xyz (parameters self));
      do 3 eexists; (split; [exact Hrun |]); repeat split.
Qed.

End AcceleratedContract.

(** C7, counterexample. In distributed mode, on a 1 x 1 x 2 grid, the array
    returned next to the row count has two dimensions (2 rows, 7 columns),
    not four. *)
Lemma distributed_return_is_a_table :
  match fst (__calculate_lammps (H := sample_external) (one_atom cubic_cell (3, 0, 0)%Q)
               (1, 1, 2) false false (sample_calculator (Some 1%Q) true true true)) with
  | Ok (RetTuple a n) => shape a = [2; 7] /\ ndim a = 2 /\ ndim a <> 4 /\ n = 2
  | _ => False
  end.
Proof. vm_compute. repeat split; discriminate. Qed.

(** ** Sigma is filled in once *)

Section SigmaDefault.
Context `{External}.

Lemma calculate_lammps_parameters atoms grid use_fp64 return_directly self :
  parameters (snd (__calculate_lammps atoms grid use_fp64 return_directly self))
  = resolved_parameters atoms grid (parameters self).
Proof.
  destruct grid as [[nx ny] nz].
  unfold __calculate_lammps, resolved_parameters, bind, get_state, modify, ret, lift_result.
  destruct (atomic_density_sigma (parameters self)) as [s |] eqn:Hs; cbv zeta;
    cbn [parameters sigma_default set_parameters set_grid_dimensions
           configuration_mpi set_sigma descriptors_contain_xyz];
    destruct (configuration_mpi (parameters self));
    destruct return_directly; try reflexivity;
    (destruct (reshape _ _) as [reshaped | e]; [| reflexivity]);
    (destruct (transpose _ _) as [full | e]; [| reflexivity]);
    destruct (descriptors_contain_xyz (parameters self));
    destruct (slice_channels_from _ _); reflexivity.
Qed.

Lemma calculate_python_parameters atoms nx ny nz self :
  0 <= nx -> 0 <= ny -> 0 <= nz ->
  parameters (snd (__calculate_python atoms (nx, ny, nz) self))
  = resolved_parameters atoms (nx, ny, nz) (parameters self).
Proof.
  intros Hx Hy Hz.
  destruct (np_zeros_grid nx ny nz Hx Hy Hz) as (a0 & Hzeros & _).
  rewrite (calculate_python_run atoms nx ny nz self a0 Hzeros).
  unfold python_run, resolved_parameters.
  destruct (atomic_density_sigma (parameters self)) as [s |] eqn:Hs.
  - destruct (is_zero (2 * s * s)); reflexivity.
  - reflexivity.
Qed.

Lemma calculate_parameters atoms nx ny nz use_fp64 return_directly self :
  0 <= nx -> 0 <= ny -> 0 <= nz ->
  parameters (snd (_calculate atoms (nx, ny, nz) use_fp64 return_directly self))
  = resolved_parameters atoms (nx, ny, nz) (parameters self).
Proof.
  intros Hx Hy Hz. unfold _calculate, bind, get_state.
  destruct (configuration_lammps (parameters self)).
  - apply calculate_lammps_parameters.
  - now apply calculate_python_parameters.
Qed.

(** C6. For a calculation on either path (grid dimensions positive): sigma,
    when unset at entry, becomes get_optimal_sigma of the voxel of the cell
    and grid, and stays as it was when set at entry; the cutoff and every
    other field of the shared parameters are as at entry; and any later
    calculation on the same parameters, whatever its atoms and grid, leaves
    the parameters, and so the cached sigma, as the first one left them. *)
Theorem sigma_written_once atoms nx ny nz use_fp64 return_directly self :
  valid_grid (nx, ny, nz) ->
  let self' := snd (_calculate atoms (nx, ny, nz) use_fp64 return_directly self) in
  atomic_density_sigma (parameters self')
  = match atomic_density_sigma (parameters self) with
    | None => Some (get_optimal_sigma (voxel_of (cell atoms) (nx, ny, nz)))
    | Some s => Some s
    end /\
  atomic_density_cutoff (parameters self') = atomic_density_cutoff (parameters self) /\
  descriptors_contain_xyz (parameters self') = descriptors_contain_xyz (parameters self) /\
  use_z_splitting (parameters self') = use_z_splitting (parameters self) /\
  configuration_lammps (parameters self') = configuration_lammps (parameters self) /\
  configuration_mpi (parameters self') = configuration_mpi (parameters self) /\
  forall atoms2 nx2 ny2 nz2 use_fp64' return_directly',
    valid_grid (nx2, ny2, nz2) ->
    parameters (snd (_calculate atoms2 (nx2, ny2, nz2) use_fp64' return_directly' self'))
    = parameters self'.
Proof.
  intros (Hx & Hy & Hz) self'.
  assert (parameters self' = resolved_parameters atoms (nx, ny, nz) (parameters self))
    as Hp by (apply calculate_parameters; lia).
  assert (forall atoms2 nx2 ny2 nz2 use_fp64' return_directly',
            valid_grid (nx2, ny2, nz2) ->
            parameters (snd (_calculate atoms2 (nx2, ny2, nz2) use_fp64' return_directly' self'))
            = parameters self') as Hagain.
  { intros atoms2 nx2 ny2 nz2 use_fp64' return_directly' (Hx2 & Hy2 & Hz2).
    rewrite calculate_parameters by lia.
    unfold resolved_parameters at 1. rewrite Hp. unfold resolved_parameters.
    destruct (atomic_density_sigma (parameters self)) as [s |] eqn:Hs.
    - now rewrite Hs.
    - reflexivity. }
  split; [| split; [| split; [| split; [| split; [| split; [| exact Hagain]]]]]];
    rewrite Hp; unfold resolved_parameters;
    destruct (atomic_density_sigma (parameters self)) as [s |] eqn:Hs;
    (assumption || reflexivity).
Qed.

End SigmaDefault.

(** ** The kernel of the direct path *)

Section Kernel.
Context `{External}.

(** What lines 284-290 do for one atom, once the coordinate of the grid point
    is in the array: the gate and the exponent both use the plain sum of the
    coordinate differences, [np_sum_diff]. *)
Lemma add_atom_density_adds a nx ny nz i j k point old
    cutoff_squared prefactor argumentfactor position :
  dense a [nx; ny; nz; 4] ->
  valid_index (nx, ny, nz) i j k ->
  get_xyz i j k a = (Ok point, a) ->
  getitem a [i; j; k; 3] = Ok old ->
  exists a',
    add_atom_density cutoff_squared prefactor argumentfactor i j k position a
    = (Ok tt, a') /\
    dense a' [nx; ny; nz; 4] /\
    getitem a' [i; j; k; 3]
    = Ok (if Qltb (np_sum_diff position point) cutoff_squared
          then (old + prefactor * np_exp (- np_sum_diff position point * argumentfactor))%Q
          else old).
Proof.
  intros Hd (Hi & Hj & Hk) Hpoint Hold.
  unfold add_atom_density, bind. rewrite Hpoint.
  destruct (Qltb (np_sum_diff position point) cutoff_squared).
  - unfold get_item. rewrite Hold.
    rewrite (set_item_dense a nx ny nz 4) by (assumption || lia).
    eexists. split; [reflexivity |]. split; [now apply dense_update_flat |].
    apply (getitem_update_flat_same a nx ny nz 4); assumption || lia.
  - exists a. repeat split; try apply Hd. exact Hold.
Qed.

(** C1 (defect of the code). One atom at (3, 0, 0) in a cubic cell of edge
    10, a 1 x 1 x 1 grid, cutoff 2: the grid point is the origin, so the
    squared Euclidean distance is 9 >= 4 and the contribution of the spec's
    kernel is 0. The code's [distance_squared] is the coordinate sum 3 < 4,
    and it adds a positive density. *)
Theorem distance_squared_is_a_coordinate_sum prefactor argumentfactor :
  (forall x, 0 < np_exp x)%Q ->
  (0 < prefactor)%Q ->
  let atoms := one_atom cubic_cell (3, 0, 0)%Q in
  let cutoff_squared := (2 * 2)%Q in
  exists a0 a1 a2 point v,
    np_zeros [1; 1; 1; 4] = Ok a0 /\
    set_grid_coordinate atoms (1, 1, 1) (voxel_of (cell atoms) (1, 1, 1)) 0 0 0 a0
    = (Ok tt, a1) /\
    get_xyz 0 0 0 a1 = (Ok point, a1) /\
    add_atom_density cutoff_squared prefactor argumentfactor 0 0 0 (3, 0, 0)%Q a1
    = (Ok tt, a2) /\
    getitem a2 [0; 0; 0; 3] = Ok v /\
    (np_sum_diff (3, 0, 0) point == 3)%Q /\
    (spec_distance_squared (3, 0, 0) point == 9)%Q /\
    spec_contribution cutoff_squared prefactor argumentfactor (3, 0, 0)%Q point = 0%Q /\
    (0 < v)%Q.
Proof.
  intros Hexp Hpre atoms cutoff_squared.
  set (a := mk_ndarray [1; 1; 1; 4] [4; 4; 4; 1] 0 [0%Q; 0%Q; 0%Q; 0%Q]).
  assert (dense a [1; 1; 1; 4]) as Hd by (repeat split).
  destruct (add_atom_density_adds a 1 1 1 0 0 0 (0, 0, 0)%Q 0%Q cutoff_squared
              prefactor argumentfactor (3, 0, 0)%Q Hd)
    as (a2 & Hadd & _ & Hget); [cbn; lia | reflexivity | reflexivity |].
  exists a, a, a2, (0, 0, 0)%Q. eexists.
  split; [reflexivity |]. split; [reflexivity |]. split; [reflexivity |].
  split; [exact Hadd |]. split; [exact Hget |].
  split; [reflexivity |]. split; [reflexivity |]. split; [reflexivity |].
  change (Qltb (np_sum_diff (3, 0, 0)%Q (0, 0, 0)%Q) cutoff_squared) with true.
  cbv iota. rewrite Qplus_0_l.
  apply Qmult_lt_0_compat; [exact Hpre | apply Hexp].
Qed.

End Kernel.

(** ** The triclinic coordinate *)

(** What the coordinate step stores for a cell that is not orthorhombic. *)
Lemma triclinic_grid_coordinate_stored atoms nx ny nz a i j k :
  orthorhombic (cell atoms) = false ->
  valid_index (nx, ny, nz) i j k ->
  dense a [nx; ny; nz; 4] ->
  exists a',
    set_grid_coordinate atoms (nx, ny, nz) (voxel_of (cell atoms) (nx, ny, nz)) i j k a
    = (Ok tt, a') /\
    get_xyz i j k a'
    = (Ok ((int_div i nx * cell_at (cell atoms) 0 0 + int_div j ny * cell_at (cell atoms) 1 0
            + int_div k nz * cell_at (cell atoms) 2 0)%Q,
           (int_div j ny * cell_at (cell atoms) 1 1
            + int_div k nz * cell_at (cell atoms) 1 2)%Q,
           (int_div k nz * cell_at (cell atoms) 2 2)%Q), a').
Proof.
  intros Htri (Hi & Hj & Hk) Hd.
  rewrite set_grid_coordinate_stores. unfold stored_coordinate. rewrite Htri.
  destruct (set_xyz_dense a nx ny nz i j k
    ((int_div i nx * cell_at (cell atoms) 0 0 + int_div j ny * cell_at (cell atoms) 1 0
      + int_div k nz * cell_at (cell atoms) 2 0)%Q,
     (int_div j ny * cell_at (cell atoms) 1 1 + int_div k nz * cell_at (cell atoms) 1 2)%Q,
     (int_div k nz * cell_at (cell atoms) 2 2)%Q) Hd Hi Hj Hk)
    as (a' & Hset & _ & Hget & _).
  exists a'. split; assumption.
Qed.

(** C3 (defect of the code). For the lower-triangular cell with rows
    (1,0,0), (0,1,0), (0,1,1), a 1 x 1 x 2 grid and the grid index (0, 0, 1),
    the spec's y component is k/nz * cell[2,1] = 1/2; the code reads
    cell[1,2] = 0 in its place and stores y = 0. The x and z components
    agree with the spec. *)
Theorem triclinic_y_reads_transposed_entry :
  let atoms := one_atom sheared_cell (0, 0, 0)%Q in
  orthorhombic (cell atoms) = false /\
  valid_index (1, 1, 2) 0 0 1 /\
  exists a0 a1 x y z,
    np_zeros [1; 1; 2; 4] = Ok a0 /\
    set_grid_coordinate atoms (1, 1, 2) (voxel_of (cell atoms) (1, 1, 2)) 0 0 1 a0
    = (Ok tt, a1) /\
    get_xyz 0 0 1 a1 = (Ok (x, y, z), a1) /\
    (y == 0)%Q /\
    let '(sx, sy, sz) := spec_triclinic_coordinate (cell atoms) (1, 1, 2) 0 0 1 in
    (sy == 1 # 2)%Q /\ ~ (y == sy)%Q /\ (x == sx)%Q /\ (z == sz)%Q.
Proof.
  cbv zeta. split; [reflexivity |]. split; [cbn; lia |].
  do 5 eexists.
  split; [reflexivity |]. split; [vm_compute; reflexivity |].
  split; [vm_compute; reflexivity |].
  split; [reflexivity |].
  vm_compute. repeat split; discriminate.
Qed.

(** ** Unit conversion *)

(** C10, counterexample. [convert_units] also accepts the null value: a unit
    argument that is not the string "None" and that raises nothing. *)
Lemma convert_units_accepts_null :
  PyNone <> PyStr "None" /\
  convert_units (np_from_buffer [1%Q] [1]) PyNone = Ok (np_from_buffer [1%Q] [1]).
Proof. split; [discriminate | reflexivity]. Qed.

Lemma eq_str_spec u s : eq_str u s = true <-> u = PyStr s.
Proof.
  destruct u as [| t | n]; cbn; split; try discriminate.
  - intros Heq. apply String.eqb_eq in Heq. now subst.
  - intros [= ->]. apply String.eqb_refl.
Qed.

(** C10, as amended. [convert_units] returns the array unchanged exactly
    when the unit is the string "None" or the null value; [backconvert_units]
    returns it unchanged exactly when the unit is the string "None"; for every
    other unit argument each raises the unit error. *)
Theorem unit_conversion_passthrough array u :
  (convert_units array u = Ok array <-> u = PyStr "None" \/ u = PyNone) /\
  (u <> PyStr "None" -> u <> PyNone -> convert_units array u = Raise unsupported_unit) /\
  (backconvert_units array u = Ok array <-> u = PyStr "None") /\
  (u <> PyStr "None" -> backconvert_units array u = Raise unsupported_unit).
Proof.
  unfold convert_units, backconvert_units.
  pose proof (eq_str_spec u "None") as Hstr.
  destruct (eq_str u "None") eqn:Heq.
  - assert (u = PyStr "None") as -> by now apply Hstr.
    cbn. repeat split; auto; try discriminate; intros; congruence.
  - assert (u <> PyStr "None") as Hne.
    { intros Hu. apply Hstr in Hu. discriminate. }
    destruct u as [| t | n]; cbn; repeat split; auto; try discriminate;
      try (intros [? | ?]; congruence); intros; congruence.
Qed.

(** ** Feed-forward construction *)

Lemma Network_init_run p s :
  Network_init p s
  = if String.eqb (loss_function_type (network p)) "mse" then
      (Ok tt, mk_net (network p) (len (layer_sizes (network p)) - 1) [] true false)
    else
      (Raise unsupported_loss,
       mk_net (network p) (len (layer_sizes (network p)) - 1) [] false false).
Proof.
  unfold Network_init, bind, put_state, modify, raise.
  destruct (String.eqb _ _); reflexivity.
Qed.

Lemma length_list_imul {A} (l : list A) n :
  len l = 1 -> 0 <= n -> len (list_imul l n) = n.
Proof.
  unfold len, list_imul. intros Hl Hn.
  assert (forall m, length (concat (repeat l m)) = m) as Hrep.
  { induction m as [| m IH]; cbn; [reflexivity |].
    rewrite length_app, IH. lia. }
  rewrite Hrep. lia.
Qed.

Lemma list_imul_nonpos {A} (l : list A) n : n <= 0 -> list_imul l n = [].
Proof. intros Hn. unfold list_imul. now rewrite Z2Nat.nonpos. Qed.

(** C9, counterexample. Three layers and one activation: the lengths differ,
    yet construction succeeds, and the list has been padded to three. *)
Lemma single_activation_is_replicated :
  let p := sample_net_parameters ["ReLU"] in
  let run := FeedForwardNet_init (torch := sample_torch) p blank_net in
  len (layer_activations (network p)) <> len (layer_sizes (network p)) - 1 /\
  fst run = Ok tt /\
  layer_activations (net_params (snd run)) = ["ReLU"; "ReLU"; "ReLU"].
Proof. cbv zeta. split; [discriminate |]. split; reflexivity. Qed.

Section FeedForward.
Context {torch : Torch}.

(** A turn of the layer loop keeps the parameters and raises neither of the
    two length errors. *)
Lemma add_layer_frame i s :
  net_params (snd (add_layer i s)) = net_params s /\
  fst (add_layer i s) <> Raise not_enough /\
  fst (add_layer i s) <> Raise too_many.
Proof.
  unfold add_layer, bind, get_state, list_item, new_Linear, modify, ret, raise.
  destruct (layer_sizes (net_params s) !! Z.to_nat i) as [n_in |];
    [| repeat split; discriminate].
  destruct (layer_sizes (net_params s) !! Z.to_nat (i + 1)) as [n_out |];
    [| repeat split; discriminate].
  destruct (nn_Linear n_in n_out) as [[msg | msg] |];
    [repeat split; discriminate | repeat split; discriminate |].
  destruct (layer_activations (net_params s) !! Z.to_nat i) as [name |];
    [| repeat split; discriminate].
  destruct (activation_mappings name); repeat split; discriminate.
Qed.

Lemma add_layers_frame xs s :
  net_params (snd (for_each xs add_layer s)) = net_params s /\
  fst (for_each xs add_layer s) <> Raise not_enough /\
  fst (for_each xs add_layer s) <> Raise too_many.
Proof.
  revert s. induction xs as [| x xs IH]; intros s.
  - cbn. repeat split; discriminate.
  - cbn [for_each]. unfold bind.
    pose proof (add_layer_frame x s) as (Hp & Hne & Htm).
    destruct (add_layer x s) as [[u | e] s1]; cbn [fst snd] in *.
    + destruct (IH s1) as (Hp1 & Hne1 & Htm1). rewrite Hp1, Hp. auto.
    + auto.
Qed.

Lemma move_to_cuda_frame s :
  net_params (snd (move_to_cuda s)) = net_params s /\
  layers (snd (move_to_cuda s)) = layers s /\
  fst (move_to_cuda s) <> Raise not_enough /\
  fst (move_to_cuda s) <> Raise too_many.
Proof.
  unfold move_to_cuda, modify, raise.
  destruct module_to_cuda as [[msg | msg] |]; repeat split; discriminate.
Qed.

(** The run of the constructor, step by step. *)
Lemma FeedForwardNet_init_run p s :
  FeedForwardNet_init p s
  = let acts := layer_activations (network p) in
    let n := len (layer_sizes (network p)) - 1 in
    if String.eqb (loss_function_type (network p)) "mse" then
      let s0 := mk_net (network p) n [] true false in
      let s1 := if len acts =? 1 then set_layer_activations (list_imul acts n) s0
                else s0 in
      if len (layer_activations (net_params s1)) <? n then (Raise not_enough, s1)
      else if len (layer_activations (net_params s1)) >? n then (Raise too_many, s1)
      else
        match for_each (range n) add_layer s1 with
        | (Ok _, s2) => if use_gpu p then move_to_cuda s2 else (Ok tt, s2)
        | (Raise e, s2) => (Raise e, s2)
        end
    else
      (Raise unsupported_loss, mk_net (network p) n [] false false).
Proof.
  unfold FeedForwardNet_init, bind. rewrite Network_init_run. cbv zeta.
  destruct (String.eqb (loss_function_type (network p)) "mse"); [| reflexivity].
  unfold get_state, modify, ret, raise.
  cbn [net_params number_of_layers layer_activations].
  destruct (len (layer_activations (network p)) =? 1).
  - cbn [set_layer_activations net_params number_of_layers layer_activations].
    destruct (_ <? _); [reflexivity |]. destruct (_ >? _); [reflexivity |].
    destruct (for_each _ _ _) as [[u | e] s2]; [| reflexivity].
    destruct (use_gpu p); reflexivity.
  - cbn [net_params number_of_layers layer_activations].
    destruct (_ <? _); [reflexivity |]. destruct (_ >? _); [reflexivity |].
    destruct (for_each _ _ _) as [[u | e] s2]; [| reflexivity].
    destruct (use_gpu p); reflexivity.
Qed.

(** C9, as amended. With the loss function "mse": when the activation list
    has a length other than 1 that differs from the layer count, construction
    raises a hard error, "not enough" for a shorter list and "too many" for a
    longer one, and leaves the list as it was; a list of exactly one
    activation is instead replicated to one copy per layer (layer count
    >= 0), after which neither length error is raised, and is emptied and
    refused as "too many" when there is no layer size at all (layer count
    -1). With any other loss function construction raises "Unsupported loss
    function." before it looks at the list, whatever the lengths, and leaves
    the list as it was. *)
Theorem activation_count_is_checked p s :
  let acts := layer_activations (network p) in
  let n := len (layer_sizes (network p)) - 1 in
  let run := FeedForwardNet_init p s in
  (len acts <> 1 -> len acts <> n ->
     (exists e, fst run = Raise e) /\
     layer_activations (net_params (snd run)) = acts /\
     (loss_function_type (network p) = "mse" ->
        (len acts < n -> fst run = Raise not_enough) /\
        (len acts > n -> fst run = Raise too_many))) /\
  (len acts = 1 -> loss_function_type (network p) = "mse" -> 0 <= n ->
     layer_activations (net_params (snd run)) = list_imul acts n /\
     len (list_imul acts n) = n /\
     fst run <> Raise not_enough /\
     fst run <> Raise too_many) /\
  (len acts = 1 -> loss_function_type (network p) = "mse" -> n < 0 ->
     fst run = Raise too_many /\
     layer_activations (net_params (snd run)) = []) /\
  (loss_function_type (network p) <> "mse" ->
     fst run = Raise unsupported_loss /\
     layer_activations (net_params (snd run)) = acts /\
     layers (snd run) = []).
Proof.
  intros acts n run. subst run. rewrite FeedForwardNet_init_run. cbv zeta.
  fold acts. fold n.
  split; [| split; [| split]].
  - intros Hone Hn.
    destruct (String.eqb (loss_function_type (network p)) "mse") eqn:Hloss.
    + destruct (Z.eqb_spec (len acts) 1) as [Heq | _]; [contradiction |].
      cbn [net_params layer_activations]. fold acts.
      destruct (Z.ltb_spec (len acts) n) as [Hlt | Hge].
      * cbn. repeat split; eauto. intros; lia.
      * rewrite Z.gtb_ltb.
        destruct (Z.ltb_spec n (len acts)) as [Hgt | Hle]; [| lia].
        cbn. repeat split; eauto. intros; lia.
    + cbn. split; [eauto |]. split; [reflexivity |].
      intros Hmse. rewrite Hmse in Hloss. discriminate.
  - intros Hone Hmse Hn. rewrite Hmse. cbn [String.eqb Ascii.eqb Bool.eqb].
    destruct (Z.eqb_spec (len acts) 1) as [_ | Hne]; [| contradiction].
    cbn [set_layer_activations net_params number_of_layers layer_activations
           layer_sizes nn_type loss_function_type layers loss_is_mse on_cuda].
    pose proof (length_list_imul acts n Hone Hn) as Hlen.
    rewrite Hlen, Z.ltb_irrefl.
    rewrite Z.gtb_ltb, Z.ltb_irrefl.
    match goal with
    | |- context [for_each ?xs add_layer ?s0] =>
        pose proof (add_layers_frame xs s0) as (Hp & Hne & Htm);
        destruct (for_each xs add_layer s0) as [[u | e] s1]
    end; cbn [fst snd] in *.
    + destruct (use_gpu p).
      * pose proof (move_to_cuda_frame s1) as (Hp' & _ & Hne' & Htm').
        rewrite Hp', Hp. cbn. repeat split; auto.
      * cbn. rewrite Hp. cbn. repeat split; auto; discriminate.
    + cbn. rewrite Hp. cbn. repeat split; auto.
  - intros Hone Hmse Hn. rewrite Hmse. cbn [String.eqb Ascii.eqb Bool.eqb].
    destruct (Z.eqb_spec (len acts) 1) as [_ | Hne]; [| contradiction].
    cbn [set_layer_activations net_params number_of_layers layer_activations
           layer_sizes nn_type loss_function_type layers loss_is_mse on_cuda].
    rewrite list_imul_nonpos by lia. change (len (@nil string)) with 0.
    assert (n = -1) as Hn1 by (unfold n, len in *; lia). rewrite Hn1.
    split; reflexivity.
  - intros Hloss.
    destruct (String.eqb_spec (loss_function_type (network p)) "mse") as [Hmse | _];
      [contradiction |].
    cbn. repeat split.
Qed.

End FeedForward.

(** ** Worked instances *)

Lemma sample_engine_full_grid atoms :
  forall inp, in_grid inp = (1, 1, 2) ->
              full_grid_output (lammps_run (External := sample_external) atoms inp) (1, 1, 2).
Proof.
  intros [sg rc g rf fp] Hg. cbn in Hg. subst g. split; reflexivity.
Defined.

(** C8 at the cubic cell of edge 10, a 1 x 1 x 2 grid and the index
    (0, 0, 1): the coordinate of the claim is (10/1 * 0, 10/1 * 0, 10/2 * 1),
    with z = 5; the calculator raises, and at the raise the coordinate
    channels of grid point (0, 0, 1) hold (0, 0, 0). *)
Lemma orthorhombic_grid_coordinate_witness :
  let atoms := one_atom cubic_cell (3, 0, 0)%Q in
  let self := sample_calculator None false false true in
  let voxel := voxel_of (cell atoms) (1, 1, 2) in
  orthorhombic (cell atoms) = true /\
  valid_index (1, 1, 2) 0 0 1 /\
  (0, 0, 1) <> (0, 0, 0) /\
  vec_scale_by_index (np_diag voxel) 0 0 1
  = ((10 / inject_Z 1 * inject_Z 0)%Q, (10 / inject_Z 1 * inject_Z 0)%Q,
     (10 / inject_Z 2 * inject_Z 1)%Q) /\
  (10 / inject_Z 2 * inject_Z 1 == 5)%Q /\
  (exists e, fst (__calculate_python (H := sample_external) atoms (1, 1, 2) self)
             = Raise e) /\
  exists a0 a1,
    np_zeros [1; 1; 2; 4] = Ok a0 /\
    (forall cutoff cutoff_squared prefactor argumentfactor,
     exists e,
       grid_loop (H := sample_external) atoms (1, 1, 2) voxel cutoff cutoff_squared
         prefactor argumentfactor a0
       = (Raise e, a1)) /\
    get_xyz 0 0 1 a1 = (Ok (0, 0, 0)%Q, a1).
Proof.
  intros atoms self voxel.
  assert (orthorhombic (cell atoms) = true) as H1 by reflexivity.
  assert (valid_index (1, 1, 2) 0 0 1) as H2 by (cbn; lia).
  assert ((0, 0, 1) <> (0, 0, 0)) as H3 by discriminate.
  split; [exact H1 |]. split; [exact H2 |]. split; [exact H3 |].
  destruct (orthorhombic_grid_coordinate (H := sample_external) atoms 1 1 2 self
              0 0 1 H1 H2) as (Hcoord & _ & Hraise & Hlost).
  split; [exact Hcoord |]. split; [reflexivity |]. split; [exact Hraise |].
  exact (Hlost H3).
Defined.



(** C5 at a 1 x 1 x 2 grid in serial mode with coordinates included. *)
Lemma calculate_lammps_full_mode_witness :
  let self := sample_calculator (Some 1%Q) true false true in
  let atoms := one_atom cubic_cell (3, 0, 0)%Q in
  configuration_mpi (parameters self) = false /\
  valid_grid (1, 1, 2) /\
  exists view self',
    __calculate_lammps (H := sample_external) atoms (1, 1, 2) false false self
    = (Ok (RetTuple view (1 * 1 * 2)), self') /\
    shape view = [1; 1; 2; 4] /\
    fingerprint_length self' = 4.
Proof.
  intros self atoms.
  assert (valid_grid (1, 1, 2)) as Hg by (cbn; lia).
  split; [reflexivity |]. split; [exact Hg |].
  destruct (calculate_lammps_full_mode (H := sample_external) atoms 1 1 2 false self
              eq_refl Hg (sample_engine_full_grid atoms))
    as (inp & full & view & self' & Hrun & _ & _ & Hshape & Hfl & _).
  exists view, self'. split; [exact Hrun |]. split; [exact Hshape | exact Hfl].
Defined.

(** C7 (amended) at a 1 x 1 x 2 grid in distributed mode. *)
Lemma calculate_lammps_return_contract_witness :
  let self := sample_calculator (Some 1%Q) true true true in
  let atoms := one_atom cubic_cell (3, 0, 0)%Q in
  valid_grid (1, 1, 2) /\
  exists a n self',
    __calculate_lammps (H := sample_external) atoms (1, 1, 2) false false self
    = (Ok (RetTuple a n), self') /\
    ndim a = 2 /\ fingerprint_length self' = 4.
Proof.
  intros self atoms.
  assert (valid_grid (1, 1, 2)) as Hg by (cbn; lia).
  split; [exact Hg |].
  destruct (calculate_lammps_return_contract (H := sample_external) atoms 1 1 2 false self
              Hg (fun _ => sample_engine_full_grid atoms))
    as (inp & a & n & self' & Hrun & Hmode).
  change (configuration_mpi (parameters self)) with true in Hmode.
  destruct Hmode as (_ & Hdim & _ & Hfl).
  exists a, n, self'. split; [exact Hrun |]. split; [exact Hdim | exact Hfl].
Defined.

(** C6 on the direct path, sigma unset at entry: the derived sigma is
    (10 / reference spacing) * 0.2 for the 1 x 1 x 1 voxel of the cubic cell. *)
Lemma sigma_written_once_witness :
  let self := sample_calculator None false false true in
  let atoms := one_atom cubic_cell (3, 0, 0)%Q in
  valid_grid (1, 1, 1) /\
  atomic_density_sigma
    (parameters (snd (_calculate (H := sample_external) atoms (1, 1, 1) false false self)))
  = Some (get_optimal_sigma (voxel_of cubic_cell (1, 1, 1))) /\
  atomic_density_cutoff
    (parameters (snd (_calculate (H := sample_external) atoms (1, 1, 1) false false self)))
  = 2%Q.
Proof.
  intros self atoms.
  assert (valid_grid (1, 1, 1)) as Hg by (cbn; lia).
  split; [exact Hg |].
  destruct (sigma_written_once (H := sample_external) atoms 1 1 1 false false self Hg)
    as (Hsigma & Hcutoff & _).
  split; [exact Hsigma | exact Hcutoff].
Defined.

(** C1 with a unit kernel: the code adds a positive density where the spec's
    kernel contributes nothing. *)
Lemma distance_squared_is_a_coordinate_sum_witness :
  (forall x, 0 < np_exp (External := sample_external) x)%Q /\
  (0 < 1)%Q /\
  exists a1 a2 v,
    add_atom_density (H := sample_external) (2 * 2)%Q 1 (1 # 2) 0 0 0 (3, 0, 0)%Q a1
    = (Ok tt, a2) /\
    getitem a2 [0; 0; 0; 3] = Ok v /\ (0 < v)%Q.
Proof.
  assert (forall x, 0 < np_exp (External := sample_external) x)%Q as Hexp
    by (intros x; reflexivity).
  assert (0 < 1)%Q as Hpre by reflexivity.
  split; [exact Hexp |]. split; [exact Hpre |].
  destruct (distance_squared_is_a_coordinate_sum (H := sample_external) 1 (1 # 2) Hexp Hpre)
    as (a0 & a1 & a2 & point & v & _ & _ & _ & Hadd & Hget & _ & _ & _ & Hv).
  exists a1, a2, v. split; [exact Hadd |]. split; [exact Hget | exact Hv].
Defined.

(** C10 (amended) at the unit string "eV". *)
Lemma unit_conversion_passthrough_witness :
  PyStr "eV" <> PyStr "None" /\ PyStr "eV" <> PyNone /\
  convert_units (np_from_buffer [1%Q] [1]) (PyStr "eV") = Raise unsupported_unit /\
  backconvert_units (np_from_buffer [1%Q] [1]) (PyStr "eV") = Raise unsupported_unit.
Proof.
  assert (PyStr "eV" <> PyStr "None") as H1 by discriminate.
  assert (PyStr "eV" <> PyNone) as H2 by discriminate.
  split; [exact H1 |]. split; [exact H2 |].
  destruct (unit_conversion_passthrough (np_from_buffer [1%Q] [1]) (PyStr "eV"))
    as (_ & Hc & _ & Hb).
  split; [exact (Hc H1 H2) | exact (Hb H1)].
Defined.

(** C9 (amended) at three layers: two activations with the loss function
    "mse" raise "not enough"; one activation with the loss function "l1"
    raises "Unsupported loss function." and is not replicated. *)
Lemma activation_count_is_checked_witness :
  let p := sample_net_parameters ["ReLU"; "Tanh"] in
  let q := unsupported_net_parameters in
  let run_p := FeedForwardNet_init (torch := sample_torch) p blank_net in
  let run_q := FeedForwardNet_init (torch := sample_torch) q blank_net in
  len (layer_activations (network p)) <> 1 /\
  len (layer_activations (network p)) <> len (layer_sizes (network p)) - 1 /\
  loss_function_type (network p) = "mse" /\
  len (layer_activations (network p)) < len (layer_sizes (network p)) - 1 /\
  fst run_p = Raise not_enough /\
  layer_activations (net_params (snd run_p)) = ["ReLU"; "Tanh"] /\
  loss_function_type (network q) <> "mse" /\
  fst run_q = Raise unsupported_loss /\
  layer_activations (net_params (snd run_q)) = ["ReLU"].
Proof.
  intros p q run_p run_q.
  assert (len (layer_activations (network p)) <> 1) as H1 by discriminate.
  assert (len (layer_activations (network p)) <> len (layer_sizes (network p)) - 1)
    as H2 by discriminate.
  assert (loss_function_type (network p) = "mse") as H3 by reflexivity.
  assert (len (layer_activations (network p)) < len (layer_sizes (network p)) - 1)
    as H4 by reflexivity.
  assert (loss_function_type (network q) <> "mse") as H5 by discriminate.
  split; [exact H1 |]. split; [exact H2 |]. split; [exact H3 |]. split; [exact H4 |].
  destruct (activation_count_is_checked (torch := sample_torch) p blank_net)
    as (Hmis & _).
  destruct (Hmis H1 H2) as (_ & Hkeep & Herr).
  destruct (Herr H3) as (Hshort & _).
  split; [exact (Hshort H4) |]. split; [exact Hkeep |]. split; [exact H5 |].
  destruct (activation_count_is_checked (torch := sample_torch) q blank_net)
    as (_ & _ & _ & Hloss).
  destruct (Hloss H5) as (Hraise & Hlist & _).
  split; [exact Hraise | exact Hlist].
Defined.

(* ===================================================================== *)
(** * Part III: further properties of the code                            *)
(* ===================================================================== *)

(** ** The atom loop of the direct path *)

(** Looping over [range(len(l))] and indexing [l] visits [l] in order. *)
Lemma for_each_range_lookup {S A} (f : A -> py S unit) e (pre l : list A) s :
  for_each (map Z.of_nat (seq (length pre) (length l)))
    (fun a => match (pre ++ l) !! Z.to_nat a with
              | Some x => f x
              | None => raise e
              end) s
  = for_each l f s.
Proof.
  revert pre s. induction l as [| x l IH]; intros pre s; [reflexivity |].
  cbn [length seq map for_each]. unfold bind.
  rewrite Nat2Z.id, lookup_app_r, Nat.sub_diag by lia. cbn [lookup list_lookup].
  destruct (f x s) as [[u | err] s1]; [| reflexivity].
  specialize (IH (pre ++ [x]) s1).
  rewrite length_app in IH. cbn [length] in IH.
  rewrite Nat.add_1_r, <- app_assoc in IH. exact IH.
Qed.

Section AtomLoop.
Context `{External}.

(** One atom: the array is written at the density cell of the grid point
    when the gate passes, and is left alone otherwise. *)
Lemma add_atom_density_run a nx ny nz i j k point old
    cutoff_squared prefactor argumentfactor position :
  dense a [nx; ny; nz; 4] ->
  valid_index (nx, ny, nz) i j k ->
  get_xyz i j k a = (Ok point, a) ->
  getitem a [i; j; k; 3] = Ok old ->
  exists a',
    add_atom_density cutoff_squared prefactor argumentfactor i j k position a
    = (Ok tt, a') /\
    dense a' [nx; ny; nz; 4] /\
    get_xyz i j k a' = (Ok point, a') /\
    getitem a' [i; j; k; 3]
    = Ok (accumulated_density cutoff_squared prefactor argumentfactor point [position] old).
Proof.
  intros Hd (Hi & Hj & Hk) Hpoint Hold.
  unfold add_atom_density, bind, accumulated_density. cbn [fold_left]. rewrite Hpoint.
  destruct (Qltb (np_sum_diff position point) cutoff_squared).
  - unfold get_item. rewrite Hold.
    rewrite (set_item_dense a nx ny nz 4) by (assumption || lia).
    eexists. split; [reflexivity |]. split; [now apply dense_update_flat |].
    split.
    + revert Hpoint. unfold get_xyz, bind, get_item, ret.
      rewrite !(getitem_update_flat_other a nx ny nz 4) by (assumption || lia).
      destruct (getitem a [i; j; k; 0]) as [x |]; [| discriminate].
      destruct (getitem a [i; j; k; 1]) as [y |]; [| discriminate].
      destruct (getitem a [i; j; k; 2]) as [z |]; [| discriminate].
      intros [= <-]. reflexivity.
    + apply (getitem_update_flat_same a nx ny nz 4); assumption || lia.
  - exists a. repeat split; try apply Hd; assumption.
Qed.

(** Lines 283-290. On an array that holds the coordinate of grid point
    (i, j, k), the loop over the atoms never raises; it leaves the coordinate
    as it was and turns the density [old] of the grid point into [old] plus,
    atom after atom, the term of every atom whose coordinate sum is below
    the squared cutoff. *)
Theorem accumulate_density_sums_atoms atoms a nx ny nz i j k point old
    cutoff_squared prefactor argumentfactor :
  dense a [nx; ny; nz; 4] ->
  valid_index (nx, ny, nz) i j k ->
  get_xyz i j k a = (Ok point, a) ->
  getitem a [i; j; k; 3] = Ok old ->
  exists a',
    accumulate_density atoms cutoff_squared prefactor argumentfactor i j k a
    = (Ok tt, a') /\
    dense a' [nx; ny; nz; 4] /\
    get_xyz i j k a' = (Ok point, a') /\
    getitem a' [i; j; k; 3]
    = Ok (accumulated_density cutoff_squared prefactor argumentfactor point
            (positions atoms) old).
Proof.
  intros Hd Hidx Hpoint Hold.
  unfold accumulate_density, len_atoms, range. rewrite Nat2Z.id.
  rewrite (for_each_range_lookup
             (add_atom_density cutoff_squared prefactor argumentfactor i j k)
             (IndexError "index out of bounds") [] (positions atoms) a).
  revert a old Hd Hpoint Hold.
  induction (positions atoms) as [| position rest IH]; intros a old Hd Hpoint Hold.
  - exists a. cbn. repeat split; try apply Hd; assumption.
  - destruct (add_atom_density_run a nx ny nz i j k point old cutoff_squared prefactor
                argumentfactor position Hd Hidx Hpoint Hold)
      as (a1 & Hrun & Hd1 & Hpoint1 & Hold1).
    destruct (IH a1 _ Hd1 Hpoint1 Hold1) as (a' & Hloop & Hd' & Hpoint' & Hold').
    exists a'. split.
    + cbn [for_each]. unfold bind. rewrite Hrun. exact Hloop.
    + split; [exact Hd' |]. split; [exact Hpoint' |]. exact Hold'.
Qed.

End AtomLoop.

(** ** The direct path on degenerate grids *)


Lemma range_nonpos n : n <= 0 -> range n = [].
Proof. intros Hn. unfold range. now rewrite Z2Nat.nonpos. Qed.

Section DegenerateGrids.
Context `{External}.

(** A negative grid dimension stops the direct path at the allocation of the
    output array: it raises [ValueError], and the calculator, sigma
    included, is as it was at entry. *)
Theorem calculate_python_negative_dimension atoms nx ny nz self :
  nx < 0 \/ ny < 0 \/ nz < 0 ->
  __calculate_python atoms (nx, ny, nz) self
  = (Raise (ValueError "negative dimensions are not allowed"), self).
Proof.
  intros Hneg. unfold __calculate_python, bind, lift_result.
  assert (np_zeros [nx; ny; nz; 4]
          = Raise (ValueError "negative dimensions are not allowed")) as ->;
    [| reflexivity].
  unfold np_zeros.
  assert (forallb (fun n => 0 <=? n) [nx; ny; nz; 4] = false) as ->; [| reflexivity].
  cbn. destruct (Z.leb_spec 0 nx); [| reflexivity].
  destruct (Z.leb_spec 0 ny); [| reflexivity].
  destruct (Z.leb_spec 0 nz); [| reflexivity]. lia.
Qed.



End DegenerateGrids.

(** ** The accelerated path, continued *)

Section AcceleratedMore.
Context `{External}.

(** With [return_directly] set the engine's table is returned as extracted,
    in distributed and in serial mode alike: nothing is reshaped, so nothing
    can raise, the feature size recorded on the calculator stays as it was,
    and the grid dimensions are recorded. *)
Theorem calculate_lammps_return_directly atoms nx ny nz use_fp64 self :
  exists inp self',
    __calculate_lammps atoms (nx, ny, nz) use_fp64 true self
    = (Ok (RetArray (engine_array (lammps_run atoms inp))), self') /\
    in_grid inp = (nx, ny, nz) /\
    in_rcutfac inp = atomic_density_cutoff (parameters self) /\
    fingerprint_length self' = fingerprint_length self /\
    grid_dimensions self' = Some (nx, ny, nz).
Proof.
  unfold __calculate_lammps, engine_array, bind, get_state, modify, ret.
  destruct (atomic_density_sigma (parameters self)) as [s |] eqn:Hs; cbv zeta;
    cbn [parameters sigma_default set_parameters set_grid_dimensions
           configuration_mpi set_sigma atomic_density_cutoff];
    destruct (configuration_mpi (parameters self));
    do 2 eexists; (split; [reflexivity |]); repeat split.
Qed.

(** In serial mode with [return_directly] unset and a grid of positive
    dimensions, an engine table whose size is not nz*ny*nx*7 makes the
    reshape raise [ValueError]; the grid
    dimensions have been recorded by then and the feature size has not been
    touched. *)
Theorem calculate_lammps_wrong_size atoms nx ny nz use_fp64 self :
  configuration_mpi (parameters self) = false ->
  valid_grid (nx, ny, nz) ->
  (forall inp, in_grid inp = (nx, ny, nz) ->
     nrows_ggrid (lammps_run atoms inp) * ncols_ggrid (lammps_run atoms inp)
     <> nz * ny * nx * 7) ->
  exists self',
    __calculate_lammps atoms (nx, ny, nz) use_fp64 false self
    = (Raise (ValueError "cannot reshape array"), self') /\
    fingerprint_length self' = fingerprint_length self /\
    grid_dimensions self' = Some (nx, ny, nz).
Proof.
  intros Hmpi (Hx & Hy & Hz) Hsize.
  pose proof (calculate_lammps_run atoms nx ny nz use_fp64 self) as Hrun.
  cbv zeta in Hrun. rewrite Hmpi in Hrun.
  set (inp := lammps_input (nx, ny, nz) use_fp64
                (lammps_resolved atoms (nx, ny, nz) self)) in *.
  specialize (Hsize inp eq_refl).
  assert (reshape_transpose (engine_array (lammps_run atoms inp)) (nx, ny, nz)
          = Raise (ValueError "cannot reshape array")) as Hraise.
  { unfold reshape_transpose, reshape, fix_unknown_dimension, engine_array,
      np_from_buffer.
    assert (forallb (fun n => 0 <=? n) [nz; ny; nx; 7] = true) as ->.
    { cbn. rewrite !andb_true_r, !andb_true_iff, !Z.leb_le. lia. }
    assert ((prod_shape [nz; ny; nx; 7] =? size
               (mk_ndarray [nrows_ggrid (lammps_run atoms inp); ncols_ggrid (lammps_run atoms inp)]
                  (c_strides [nrows_ggrid (lammps_run atoms inp);
                              ncols_ggrid (lammps_run atoms inp)]) 0
                  (payload (lammps_run atoms inp)))) = false) as ->.
    { apply Z.eqb_neq. unfold size. cbn. lia. }
    reflexivity. }
  rewrite Hraise in Hrun.
  eexists. split; [exact Hrun |].
  unfold lammps_resolved. destruct (atomic_density_sigma (parameters self)); split; reflexivity.
Qed.

(** The density handed back in serial mode does not depend on the "include
    coordinates" flag: the last channel of the four-channel view and the
    only channel of the one-channel view hold the same value at every grid
    point. *)
Theorem density_channel_independent_of_xyz atoms nx ny nz use_fp64 self :
  configuration_mpi (parameters self) = false ->
  valid_grid (nx, ny, nz) ->
  (forall inp, in_grid inp = (nx, ny, nz) ->
               full_grid_output (lammps_run atoms inp) (nx, ny, nz)) ->
  exists view4 view1 n4 n1,
    fst (__calculate_lammps atoms (nx, ny, nz) use_fp64 false (set_contain_xyz true self))
    = Ok (RetTuple view4 n4) /\
    fst (__calculate_lammps atoms (nx, ny, nz) use_fp64 false (set_contain_xyz false self))
    = Ok (RetTuple view1 n1) /\
    n4 = n1 /\
    forall x y z,
      valid_index (nx, ny, nz) x y z ->
      exists v, getitem view4 [x; y; z; 3] = Ok v /\ getitem view1 [x; y; z; 0] = Ok v.
Proof.
  intros Hmpi (Hx & Hy & Hz) Hout.
  pose proof (calculate_lammps_run atoms nx ny nz use_fp64 (set_contain_xyz true self)) as Hon.
  pose proof (calculate_lammps_run atoms nx ny nz use_fp64 (set_contain_xyz false self)) as Hoff.
  cbv zeta in Hon, Hoff.
  cbn [set_contain_xyz set_parameters parameters configuration_mpi descriptors_contain_xyz]
    in Hon, Hoff.
  rewrite Hmpi in Hon, Hoff.
  set (inp := lammps_input (nx, ny, nz) use_fp64
                (lammps_resolved atoms (nx, ny, nz) (set_contain_xyz true self))) in *.
  assert (lammps_input (nx, ny, nz) use_fp64
            (lammps_resolved atoms (nx, ny, nz) (set_contain_xyz false self)) = inp) as Hsame.
  { unfold inp, lammps_input, lammps_resolved, set_contain_xyz.
    cbn [set_parameters parameters atomic_density_sigma].
    destruct (atomic_density_sigma (parameters self)); reflexivity. }
  rewrite Hsame in Hoff.
  pose proof (Hout inp eq_refl) as Hfull.
  rewrite (reshape_transpose_view (lammps_run atoms inp) nx ny nz) in Hon, Hoff
    by (lia || assumption).
  destruct Hfull as [_ Hlen].
  do 4 eexists.
  split; [rewrite Hon; reflexivity |].
  split; [rewrite Hoff; reflexivity |].
  split; [reflexivity |].
  intros x y z (Hx' & Hy' & Hz').
  destruct (channel_view_lookup (payload (lammps_run atoms inp)) nx ny nz 3 x y z 3)
    as (v & Hv & Hget4); try (assumption || lia).
  destruct (channel_view_lookup (payload (lammps_run atoms inp)) nx ny nz 6 x y z 0)
    as (v' & Hv' & Hget1); try (assumption || lia).
  exists v. split; [exact Hget4 |].
  change (3 + 3) with (0 + 6) in Hv. rewrite Hv in Hv'. injection Hv' as <-.
  exact Hget1.
Qed.

(** In serial mode the z-splitting flag has no effect on what is returned. *)
Theorem serial_mode_ignores_z_splitting atoms grid use_fp64 return_directly self b :
  configuration_mpi (parameters self) = false ->
  fst (__calculate_lammps atoms grid use_fp64 return_directly (set_use_z_splitting b self))
  = fst (__calculate_lammps atoms grid use_fp64 return_directly self).
Proof.
  intros Hmpi. destruct grid as [[nx ny] nz].
  destruct self as [[sg cut xyz zs lm mpi] gd fl]. cbn in Hmpi. subst mpi.
  unfold __calculate_lammps, set_use_z_splitting, bind, get_state, modify, ret, lift_result.
  cbn [set_parameters parameters atomic_density_sigma atomic_density_cutoff
         descriptors_contain_xyz use_z_splitting configuration_lammps configuration_mpi
         grid_dimensions fingerprint_length].
  destruct sg as [s |]; cbv zeta;
    cbn [parameters sigma_default set_parameters set_grid_dimensions
           configuration_mpi set_sigma atomic_density_cutoff atomic_density_sigma
           descriptors_contain_xyz use_z_splitting];
    destruct return_directly; try reflexivity;
    (destruct (reshape _ _) as [reshaped | e]; [| reflexivity]);
    (destruct (transpose _ _) as [full | e]; [| reflexivity]);
    destruct xyz; destruct (slice_channels_from _ _); reflexivity.
Qed.

End AcceleratedMore.

(** The reordering is a rearrangement of the buffer: in the reshaped and
    transposed array every buffer position is the position of a grid entry
    (x, y, z, c), and of one only. *)
Theorem reshape_transpose_is_a_rearrangement out nx ny nz :
  valid_grid (nx, ny, nz) ->
  full_grid_output out (nx, ny, nz) ->
  exists A,
    reshape_transpose (engine_array out) (nx, ny, nz) = Ok A /\
    (forall p, 0 <= p < nz * ny * nx * 7 ->
       exists x y z c,
         valid_index (nx, ny, nz) x y z /\ 0 <= c < 7 /\
         flat_index (shape A) (strides A) [x; y; z; c] = Ok p) /\
    (forall x y z c x' y' z' c',
       valid_index (nx, ny, nz) x y z -> 0 <= c < 7 ->
       valid_index (nx, ny, nz) x' y' z' -> 0 <= c' < 7 ->
       flat_index (shape A) (strides A) [x; y; z; c]
       = flat_index (shape A) (strides A) [x'; y'; z'; c'] ->
       (x, y, z, c) = (x', y', z', c')).
Proof.
  intros (Hx & Hy & Hz) Hout.
  eexists. split; [apply reshape_transpose_view; (lia || assumption) |].
  cbn [shape strides]. split.
  - intros p Hp.
    set (c := p mod 7). set (q1 := p / 7).
    set (x := q1 mod nx). set (q2 := q1 / nx).
    set (y := q2 mod ny). set (z := q2 / ny).
    assert (p = 7 * q1 + c) as Ep by (apply Z.div_mod; lia).
    assert (q1 = nx * q2 + x) as Eq1 by (apply Z.div_mod; lia).
    assert (q2 = ny * z + y) as Eq2 by (apply Z.div_mod; lia).
    assert (0 <= c < 7) as Hc by (apply Z.mod_pos_bound; lia).
    assert (0 <= x < nx) as Hx' by (apply Z.mod_pos_bound; lia).
    assert (0 <= y < ny) as Hy' by (apply Z.mod_pos_bound; lia).
    assert (0 <= q1 < nz * ny * nx) as Hq1.
    { split; [apply Z.div_pos; lia | apply Z.div_lt_upper_bound; lia]. }
    assert (0 <= q2 < nz * ny) as Hq2.
    { split; [apply Z.div_pos; lia | apply Z.div_lt_upper_bound; lia]. }
    assert (0 <= z < nz) as Hz'.
    { split; [apply Z.div_pos; lia | apply Z.div_lt_upper_bound; lia]. }
    exists x, y, z, c. split; [repeat split; lia |]. split; [exact Hc |].
    rewrite flat_index4 by assumption. f_equal.
    clearbody c q1 x q2 y z. subst p q1 q2. ring.
  - intros x y z c x' y' z' c' (Hx1 & Hy1 & Hz1) Hc (Hx2 & Hy2 & Hz2) Hc'.
    rewrite !flat_index4 by assumption. intros [= Heq].
    assert (c + (x + (y + z * ny) * nx) * 7 = c' + (x' + (y' + z' * ny) * nx) * 7) as E1
      by lia.
    assert (c = c') as Ec.
    { apply (f_equal (fun t => t mod 7)) in E1.
      rewrite !Z_mod_plus_full, !Z.mod_small in E1 by assumption. exact E1. }
    assert (x + (y + z * ny) * nx = x' + (y' + z' * ny) * nx) as E2 by lia.
    assert (x = x') as Ex.
    { apply (f_equal (fun t => t mod nx)) in E2.
      rewrite !Z_mod_plus_full, !Z.mod_small in E2 by assumption. exact E2. }
    assert (y + z * ny = y' + z' * ny) as E3 by nia.
    assert (y = y') as Ey.
    { apply (f_equal (fun t => t mod ny)) in E3.
      rewrite !Z_mod_plus_full, !Z.mod_small in E3 by assumption. exact E3. }
    assert (z = z') as Ez by nia.
    congruence.
Qed.

(** ** Feed-forward construction, continued *)

Section FeedForwardLayers.
Context {torch : Torch}.

Lemma built_layers_cons a b rest name names :
  built_layers (a :: b :: rest) (name :: names)
  = match nn_Linear a b with
    | Some e => ([], Some (torch_exception e))
    | None =>
        match activation_mappings name with
        | Some kind =>
            (Linear a b :: Activation kind :: fst (built_layers (b :: rest) names),
             snd (built_layers (b :: rest) names))
        | None => ([Linear a b], Some invalid_activation)
        end
    end.
Proof.
  change (built_layers (a :: b :: rest) (name :: names))
    with (match nn_Linear a b with
          | Some e => ([], Some (torch_exception e))
          | None =>
              match activation_mappings name with
              | Some kind =>
                  let '(more, stopped) := built_layers (b :: rest) names in
                  (Linear a b :: Activation kind :: more, stopped)
              | None => ([Linear a b], Some invalid_activation)
              end
          end).
  destruct (nn_Linear a b); [reflexivity |].
  destruct (activation_mappings name); [| reflexivity].
  now destruct (built_layers (b :: rest) names).
Qed.

Lemma add_layers_run names : forall off sizes s,
  drop off (layer_sizes (net_params s)) = sizes ->
  drop off (layer_activations (net_params s)) = names ->
  length sizes = S (length names) ->
  for_each (map Z.of_nat (seq off (length names))) add_layer s
  = (match snd (built_layers sizes names) with
     | Some e => Raise e
     | None => Ok tt
     end,
     append_layers (fst (built_layers sizes names)) s).
Proof.
  induction names as [| name names IH]; intros off sizes s Hsizes Hnames Hlen.
  - destruct sizes as [| a [| b rest]]; cbn in Hlen; try discriminate.
    cbn. unfold ret, append_layers. rewrite app_nil_r. now destruct s.
  - destruct sizes as [| a [| b rest]]; cbn in Hlen; try discriminate.
    cbn [length seq map for_each]. unfold bind.
    assert (layer_sizes (net_params s) !! off = Some a) as Ha.
    { rewrite <- (Nat.add_0_r off), <- lookup_drop, Hsizes. reflexivity. }
    assert (layer_sizes (net_params s) !! S off = Some b) as Hb.
    { rewrite <- (Nat.add_1_r off), <- lookup_drop, Hsizes. reflexivity. }
    assert (layer_activations (net_params s) !! off = Some name) as Hn.
    { rewrite <- (Nat.add_0_r off), <- lookup_drop, Hnames. reflexivity. }
    assert (add_layer (Z.of_nat off) s
            = match nn_Linear a b with
              | Some e => (Raise (torch_exception e), s)
              | None =>
                  match activation_mappings name with
                  | Some kind =>
                      (Ok tt, append_layer (Activation kind) (append_layer (Linear a b) s))
                  | None => (Raise invalid_activation, append_layer (Linear a b) s)
                  end
              end) as Hstep.
    { unfold add_layer, bind, get_state, list_item, new_Linear, modify, ret, raise.
      replace (Z.to_nat (Z.of_nat off + 1)) with (S off) by lia.
      rewrite Nat2Z.id, Ha, Hb.
      destruct (nn_Linear a b); [reflexivity |].
      cbn [net_params append_layer]. rewrite Hn.
      destruct (activation_mappings name); reflexivity. }
    rewrite Hstep, built_layers_cons.
    destruct (nn_Linear a b) as [e |].
    { cbn [fst snd]. unfold append_layers. rewrite app_nil_r. now destruct s. }
    destruct (activation_mappings name) as [kind |].
    + rewrite (IH (S off) (b :: rest)).
      * destruct (built_layers (b :: rest) names) as [more stopped]. cbn [fst snd].
        f_equal. unfold append_layers, append_layer.
        cbn [net_params number_of_layers layers loss_is_mse on_cuda].
        rewrite <- !app_assoc. reflexivity.
      * cbn [net_params append_layer].
        rewrite (drop_S _ a off Ha) in Hsizes. now injection Hsizes.
      * cbn [net_params append_layer].
        rewrite (drop_S _ name off Hn) in Hnames. now injection Hnames.
      * cbn in *. lia.
    + reflexivity.
Qed.

(** The constructor, once the loss function and the length check have been
    passed: it appends the layers of [built_layers], raises what stopped
    the loop, if anything did, and otherwise ends as the move to the GPU
    does. *)
Lemma FeedForwardNet_init_layers p s :
  loss_function_type (network p) = "mse" ->
  len (checked_activations p) = len (layer_sizes (network p)) - 1 ->
  let built := built_layers (layer_sizes (network p)) (checked_activations p) in
  fst (FeedForwardNet_init p s)
  = match snd built with
    | Some e => Raise e
    | None => cuda_outcome p
    end /\
  layers (snd (FeedForwardNet_init p s)) = fst built /\
  layer_activations (net_params (snd (FeedForwardNet_init p s))) = checked_activations p.
Proof.
  intros Hmse Hlen built. subst built.
  rewrite FeedForwardNet_init_run. cbv zeta. rewrite Hmse.
  cbn [String.eqb Ascii.eqb Bool.eqb].
  set (n := len (layer_sizes (network p)) - 1) in *.
  set (s0 := mk_net (network p) n [] true false).
  set (s1 := if len (layer_activations (network p)) =? 1
             then set_layer_activations (list_imul (layer_activations (network p)) n) s0
             else s0).
  assert (layer_activations (net_params s1) = checked_activations p) as Hacts.
  { unfold s1, checked_activations. fold n.
    destruct (len (layer_activations (network p)) =? 1); reflexivity. }
  assert (layer_sizes (net_params s1) = layer_sizes (network p)) as Hsizes.
  { unfold s1. destruct (len (layer_activations (network p)) =? 1); reflexivity. }
  assert (layers s1 = []) as Hlayers.
  { unfold s1. destruct (len (layer_activations (network p)) =? 1); reflexivity. }
  rewrite Hacts, Hlen, Z.ltb_irrefl, Z.gtb_ltb, Z.ltb_irrefl.
  assert (range n = map Z.of_nat (seq 0 (length (checked_activations p)))) as ->.
  { unfold range. rewrite <- Hlen. unfold len. now rewrite Nat2Z.id. }
  rewrite (add_layers_run (checked_activations p) 0 (layer_sizes (network p)) s1).
  - destruct (built_layers _ _) as [more stopped]. cbn [fst snd].
    destruct stopped as [e |].
    + cbn. rewrite Hlayers, Hacts. auto.
    + unfold cuda_outcome, move_to_cuda, modify, raise.
      destruct (use_gpu p); [destruct module_to_cuda |];
        cbn; rewrite Hlayers, Hacts; auto.
  - now rewrite drop_0.
  - now rewrite drop_0.
  - unfold len in Hlen. fold n in Hlen. unfold n, len in Hlen. lia.
Qed.

Lemma built_layers_valid names : forall sizes,
  length sizes = S (length names) ->
  linear_layers_constructible sizes ->
  Forall (fun name => is_Some (activation_mappings name)) names ->
  snd (built_layers sizes names) = None /\
  length (fst (built_layers sizes names)) = (2 * length names)%nat /\
  forall i n_in n_out name kind,
    sizes !! i = Some n_in -> sizes !! S i = Some n_out ->
    names !! i = Some name -> activation_mappings name = Some kind ->
    fst (built_layers sizes names) !! (2 * i)%nat = Some (Linear n_in n_out) /\
    fst (built_layers sizes names) !! S (2 * i) = Some (Activation kind).
Proof.
  induction names as [| name names IH]; intros sizes Hlen Hlinear Hvalid.
  - destruct sizes as [| a [| b rest]]; cbn in Hlen; try discriminate.
    cbn. repeat split; intros; discriminate.
  - destruct sizes as [| a [| b rest]]; cbn in Hlen; try discriminate.
    apply Forall_cons in Hvalid as [[kind0 Hkind0] Hvalid].
    destruct (IH (b :: rest)) as (Hfin & Hlength & Hat);
      [cbn in *; lia | intros i x y Hx Hy; exact (Hlinear (S i) x y Hx Hy)
      | exact Hvalid |].
    rewrite built_layers_cons, (Hlinear 0%nat a b eq_refl eq_refl), Hkind0.
    destruct (built_layers (b :: rest) names) as [more stopped]. cbn [fst snd] in *.
    split; [exact Hfin |]. split; [cbn; lia |].
    intros i n_in n_out nm kind Hin Hout Hnm Hkind.
    destruct i as [| i].
    + cbn in Hin, Hout, Hnm. injection Hin as <-. injection Hout as <-.
      injection Hnm as <-. rewrite Hkind0 in Hkind. injection Hkind as <-.
      split; reflexivity.
    + cbn in Hin, Hout, Hnm.
      destruct (Hat i n_in n_out nm kind Hin Hout Hnm Hkind) as [Hl Ha].
      replace (2 * S i)%nat with (S (S (2 * i))) by lia. split; assumption.
Qed.

Lemma built_layers_invalid names : forall sizes,
  length sizes = S (length names) ->
  linear_layers_constructible sizes ->
  Exists (fun name => activation_mappings name = None) names ->
  snd (built_layers sizes names) = Some invalid_activation.
Proof.
  induction names as [| name names IH]; intros sizes Hlen Hlinear Hbad.
  - inversion Hbad.
  - destruct sizes as [| a [| b rest]]; cbn in Hlen; try discriminate.
    rewrite built_layers_cons, (Hlinear 0%nat a b eq_refl eq_refl).
    destruct (activation_mappings name) as [kind |] eqn:Hkind; [| reflexivity].
    apply Exists_cons in Hbad as [Hbad | Hbad]; [congruence |].
    apply (IH (b :: rest)); [cbn in *; lia | | exact Hbad].
    intros i x y Hx Hy. exact (Hlinear (S i) x y Hx Hy).
Qed.

(** The first linear layer torch refuses stops the loop: the exception is
    torch's, and what has been appended is what the turns before it built. *)
Lemma built_layers_refused names : forall sizes i n_in n_out e,
  length sizes = S (length names) ->
  Forall (fun name => is_Some (activation_mappings name)) names ->
  sizes !! i = Some n_in -> sizes !! S i = Some n_out ->
  nn_Linear n_in n_out = Some e ->
  (forall i' x y, (i' < i)%nat -> sizes !! i' = Some x -> sizes !! S i' = Some y ->
                  nn_Linear x y = None) ->
  snd (built_layers sizes names) = Some (torch_exception e) /\
  length (fst (built_layers sizes names)) = (2 * i)%nat.
Proof.
  induction names as [| name names IH]; intros sizes i n_in n_out e Hlen Hvalid Hin Hout
    Hrefused Hbefore.
  - destruct sizes as [| a [| b rest]]; cbn in Hlen; discriminate.
  - destruct sizes as [| a [| b rest]]; cbn in Hlen; try discriminate.
    apply Forall_cons in Hvalid as [[kind0 Hkind0] Hvalid].
    rewrite built_layers_cons.
    destruct i as [| i].
    + cbn in Hin, Hout. injection Hin as <-. injection Hout as <-.
      rewrite Hrefused. split; reflexivity.
    + rewrite (Hbefore 0%nat a b ltac:(lia) eq_refl eq_refl), Hkind0.
      destruct (IH (b :: rest) i n_in n_out e) as (Hstop & Hlength);
        [cbn in *; lia | exact Hvalid | exact Hin | exact Hout | exact Hrefused | |].
      { intros i' x y Hlt Hx Hy. apply (Hbefore (S i') x y); [lia | exact Hx | exact Hy]. }
      cbn [fst snd]. split; [exact Hstop |].
      cbn [length]. rewrite Hlength. lia.
Qed.

(** With the loss function "mse", an activation list that passes the length
    check (as given, or one activation replicated), only names of the
    mapping, layer sizes of which torch builds every linear layer, and, when
    the GPU is asked for, a module torch can move there, construction
    succeeds and the network has two layers per layer count: layer 2i is the
    linear layer from layer_sizes[i] to layer_sizes[i+1] and layer 2i+1 the
    activation named at position i. *)
Theorem FeedForwardNet_init_builds_layers p s :
  loss_function_type (network p) = "mse" ->
  len (checked_activations p) = len (layer_sizes (network p)) - 1 ->
  Forall (fun name => is_Some (activation_mappings name)) (checked_activations p) ->
  linear_layers_constructible (layer_sizes (network p)) ->
  (use_gpu p = true -> module_to_cuda = None) ->
  fst (FeedForwardNet_init p s) = Ok tt /\
  len (layers (snd (FeedForwardNet_init p s))) = 2 * (len (layer_sizes (network p)) - 1) /\
  forall i n_in n_out name kind,
    layer_sizes (network p) !! i = Some n_in ->
    layer_sizes (network p) !! S i = Some n_out ->
    checked_activations p !! i = Some name ->
    activation_mappings name = Some kind ->
    layers (snd (FeedForwardNet_init p s)) !! (2 * i)%nat = Some (Linear n_in n_out) /\
    layers (snd (FeedForwardNet_init p s)) !! S (2 * i) = Some (Activation kind).
Proof.
  intros Hmse Hlen Hvalid Hlinear Hcuda.
  destruct (FeedForwardNet_init_layers p s Hmse Hlen) as (Hres & Hlayers & _).
  assert (length (layer_sizes (network p)) = S (length (checked_activations p))) as Hl
    by (unfold len in Hlen; lia).
  destruct (built_layers_valid _ _ Hl Hlinear Hvalid) as (Hfin & Hlength & Hat).
  rewrite Hres, Hlayers, Hfin. split; [| split].
  - unfold cuda_outcome. destruct (use_gpu p); [| reflexivity].
    now rewrite Hcuda.
  - unfold len in *. lia.
  - exact Hat.
Qed.

(** With the loss function "mse", an activation list that passes the length
    check and layer sizes of which torch builds every linear layer, one name
    outside the mapping (Sigmoid, ReLU, LeakyReLU, Tanh) makes construction
    raise the "invalid activation" error. *)
Theorem FeedForwardNet_init_invalid_activation p s :
  loss_function_type (network p) = "mse" ->
  len (checked_activations p) = len (layer_sizes (network p)) - 1 ->
  linear_layers_constructible (layer_sizes (network p)) ->
  Exists (fun name => activation_mappings name = None) (checked_activations p) ->
  fst (FeedForwardNet_init p s) = Raise invalid_activation.
Proof.
  intros Hmse Hlen Hlinear Hbad.
  destruct (FeedForwardNet_init_layers p s Hmse Hlen) as (Hres & _ & _).
  assert (length (layer_sizes (network p)) = S (length (checked_activations p))) as Hl
    by (unfold len in Hlen; lia).
  now rewrite Hres, (built_layers_invalid _ _ Hl Hlinear Hbad).
Qed.

(** With the loss function "mse", an activation list that passes the length
    check and only names of the mapping, the first linear layer torch
    refuses (a negative size, say) makes construction raise torch's
    exception, with the two layers of each earlier turn appended and nothing
    after them. *)
Theorem FeedForwardNet_init_linear_refused p s i n_in n_out e :
  loss_function_type (network p) = "mse" ->
  len (checked_activations p) = len (layer_sizes (network p)) - 1 ->
  Forall (fun name => is_Some (activation_mappings name)) (checked_activations p) ->
  layer_sizes (network p) !! i = Some n_in ->
  layer_sizes (network p) !! S i = Some n_out ->
  nn_Linear n_in n_out = Some e ->
  (forall i' x y, (i' < i)%nat ->
     layer_sizes (network p) !! i' = Some x -> layer_sizes (network p) !! S i' = Some y ->
     nn_Linear x y = None) ->
  fst (FeedForwardNet_init p s) = Raise (torch_exception e) /\
  len (layers (snd (FeedForwardNet_init p s))) = 2 * Z.of_nat i.
Proof.
  intros Hmse Hlen Hvalid Hin Hout Hrefused Hbefore.
  destruct (FeedForwardNet_init_layers p s Hmse Hlen) as (Hres & Hlayers & _).
  assert (length (layer_sizes (network p)) = S (length (checked_activations p))) as Hl
    by (unfold len in Hlen; lia).
  destruct (built_layers_refused _ _ i n_in n_out e Hl Hvalid Hin Hout Hrefused Hbefore)
    as (Hstop & Hlength).
  rewrite Hres, Hlayers, Hstop. split; [reflexivity |]. unfold len. lia.
Qed.

(** Without any layer size the layer count is -1 and no activation list can
    pass the length check: with the loss function "mse" construction always
    raises "too many", whatever the activations, the empty list included. *)
Theorem FeedForwardNet_init_no_layer_sizes p s :
  layer_sizes (network p) = [] ->
  loss_function_type (network p) = "mse" ->
  fst (FeedForwardNet_init p s) = Raise too_many.
Proof.
  intros Hsizes Hmse. rewrite FeedForwardNet_init_run. cbv zeta.
  rewrite Hmse, Hsizes. cbn [String.eqb Ascii.eqb Bool.eqb].
  change (len (@nil Z) - 1) with (-1).
  destruct (len (layer_activations (network p)) =? 1).
  - reflexivity.
  - cbn [net_params layer_activations].
    assert (0 <= len (layer_activations (network p))) as Hnn by (unfold len; lia).
    destruct (Z.ltb_spec (len (layer_activations (network p))) (-1)); [lia |].
    rewrite Z.gtb_ltb.
    destruct (Z.ltb_spec (-1) (len (layer_activations (network p)))); [reflexivity | lia].
Qed.

End FeedForwardLayers.

(** ** The transformer's number of heads *)

Lemma heads_while_finds_divisor d : forall fuel h,
  1 <= h <= d ->
  (Z.to_nat (d - h) < fuel)%nat ->
  exists h',
    heads_while fuel d h = Heads h' /\
    h <= h' <= d /\ d mod h' = 0 /\
    forall k, h <= k < h' -> d mod k <> 0.
Proof.
  induction fuel as [| fuel IH]; intros h Hh Hfuel; [lia |].
  cbn [heads_while]. unfold py_mod.
  destruct (Z.eqb_spec h 0) as [-> | _]; [lia |].
  destruct (Z.eqb_spec (d mod h) 0) as [Hdiv | Hndiv]; cbn [negb].
  - exists h. split; [reflexivity |]. split; [lia |]. split; [exact Hdiv |]. intros; lia.
  - assert (h <> d) as Hne by (intros ->; rewrite Z_mod_same_full in Hndiv; lia).
    destruct (IH (h + 1)) as (h' & Hrun & Hrange & Hdiv & Hmin); [lia | lia |].
    exists h'. split; [exact Hrun |]. split; [lia |]. split; [exact Hdiv |].
    intros k Hk. destruct (Z.eq_dec k h) as [-> | Hkh]; [exact Hndiv | apply Hmin; lia].
Qed.

(** For 1 <= num_heads <= layer_sizes[0] the adjustment ends (d - num_heads
    + 1 tests of the loop condition are enough) and leaves in num_heads the
    least divisor of layer_sizes[0] that is not below the configured value. *)
Theorem adjust_num_heads_least_divisor fuel d rest h :
  1 <= h <= d ->
  (Z.to_nat (d - h) < fuel)%nat ->
  exists h',
    adjust_num_heads fuel (d :: rest) h = Heads h' /\
    h <= h' <= d /\ d mod h' = 0 /\
    forall k, h <= k < h' -> d mod k <> 0.
Proof.
  intros Hh Hfuel. unfold adjust_num_heads, py_mod.
  destruct (Z.eqb_spec h 0) as [-> | _]; [lia |].
  destruct (Z.eqb_spec (d mod h) 0) as [Hdiv | Hndiv]; cbn [negb].
  - exists h. split; [reflexivity |]. split; [lia |]. split; [exact Hdiv |]. intros; lia.
  - now apply heads_while_finds_divisor.
Qed.

Lemma heads_while_above d : forall fuel h,
  0 < d < h -> heads_while fuel d h = HeadsStillRunning.
Proof.
  induction fuel as [| fuel IH]; intros h Hh; [reflexivity |].
  cbn [heads_while]. unfold py_mod.
  destruct (Z.eqb_spec h 0) as [-> | _]; [lia |].
  rewrite Z.mod_small by lia.
  destruct (Z.eqb_spec d 0) as [-> | _]; [lia |]. cbn [negb].
  apply IH. lia.
Qed.

(** For num_heads above a positive layer_sizes[0] no value reached by the
    loop divides layer_sizes[0]: the loop is still running after any number
    of tests, so the constructor does not return. *)
Theorem adjust_num_heads_never_ends fuel d rest h :
  0 < d < h ->
  adjust_num_heads fuel (d :: rest) h = HeadsStillRunning.
Proof.
  intros Hh. unfold adjust_num_heads, py_mod.
  destruct (Z.eqb_spec h 0) as [-> | _]; [lia |].
  rewrite Z.mod_small by lia.
  destruct (Z.eqb_spec d 0) as [-> | _]; [lia |]. cbn [negb].
  now apply heads_while_above.
Qed.

(** ** The transformer's attention mask *)

Lemma entry_fmap {A B} (f : A -> B) (t : tensor2 A) i j :
  entry (fmap (fmap (M := list) f) t) i j = fmap f (entry t i j).
Proof.
  unfold entry. rewrite list_lookup_fmap.
  destruct (t !! i) as [row |]; cbn; [apply list_lookup_fmap | reflexivity].
Qed.

Lemma entry_zip_with {A B C} (f : A -> B -> C) (t : tensor2 A) (m : tensor2 B) i j x y :
  entry t i j = Some x -> entry m i j = Some y ->
  entry (zip_with (zip_with f) t m) i j = Some (f x y).
Proof.
  unfold entry. intros Hx Hy. rewrite lookup_zip_with.
  destruct (t !! i) as [r |]; [| discriminate].
  destruct (m !! i) as [r' |]; [| discriminate]. cbn.
  rewrite lookup_zip_with, Hx, Hy. reflexivity.
Qed.

Lemma entry_upper_triangle n i j :
  (i < n)%nat -> (j < n)%nat ->
  entry (tensor_eq (torch_triu (torch_ones (Z.of_nat n) (Z.of_nat n))) 1) i j
  = Some (negb (j <? i)%nat).
Proof.
  intros Hi Hj. unfold tensor_eq. rewrite entry_fmap.
  unfold entry, torch_triu, torch_ones. rewrite Nat2Z.id.
  rewrite list_lookup_imap, lookup_replicate_2 by exact Hi.
  cbv beta iota delta [fmap option_fmap option_map].
  rewrite list_lookup_imap, lookup_replicate_2 by exact Hj.
  cbv beta iota delta [fmap option_fmap option_map].
  now destruct (j <? i)%nat.
Qed.

Lemma entry_transpose01 {A} (d : A) (t : tensor2 A) n i j x :
  length t = n -> Forall (fun row => length row = n) t ->
  (i < n)%nat ->
  entry t j i = Some x ->
  entry (transpose01 d t) i j = Some x.
Proof.
  intros Hrows Hcols Hi Hx. unfold transpose01.
  destruct t as [| row rest] eqn:Ht; [cbn in Hrows; lia |].
  rewrite <- Ht in *. 
  assert (length row = n) as Hrow.
  { rewrite Ht in Hcols. now apply Forall_cons in Hcols as [? _]. }
  unfold entry in *. rewrite list_lookup_fmap, lookup_seq_lt by lia. cbn.
  rewrite list_lookup_fmap.
  destruct (t !! j) as [r |]; [| discriminate]. cbn.
  now rewrite (nth_lookup_Some _ _ _ _ Hx).
Qed.

(** The mask is causal: for 0 <= i, j < size the entry (i, j) is 0.0 when
    j <= i (position i may look at position j) and -inf when j > i. *)
Theorem generate_square_subsequent_mask_is_causal size i j :
  (i < Z.to_nat size)%nat -> (j < Z.to_nat size)%nat ->
  entry (generate_square_subsequent_mask size) i j
  = Some (if (j <=? i)%nat then MaskFloat 0 else MinusInfinity).
Proof.
  intros Hi Hj.
  assert (exists n, size = Z.of_nat n /\ Z.to_nat size = n) as (n & Hsize & Hn)
    by (exists (Z.to_nat size); lia).
  rewrite Hn in Hi, Hj. clear Hn. subst size.
  unfold generate_square_subsequent_mask.
  set (tri := tensor_eq (torch_triu (torch_ones (Z.of_nat n) (Z.of_nat n))) 1).
  assert (entry (transpose01 false tri) i j = Some (negb (i <? j)%nat)) as Hmask.
  { apply (entry_transpose01 false tri n).
    - unfold tri, tensor_eq, torch_triu, torch_ones.
      now rewrite length_fmap, length_imap, length_replicate, Nat2Z.id.
    - unfold tri, tensor_eq, torch_triu, torch_ones. rewrite Nat2Z.id.
      apply Forall_fmap, Forall_forall. intros row Hrow.
      apply list_elem_of_lookup in Hrow as [k Hk].
      rewrite list_lookup_imap in Hk.
      destruct (replicate n (replicate n 1) !! k) as [r |] eqn:Hr; [| discriminate].
      apply lookup_replicate in Hr as [-> _]. cbn in Hk. injection Hk as <-.
      cbn. now rewrite length_fmap, length_imap, length_replicate.
    - exact Hi.
    - now apply entry_upper_triangle. }
  set (mask := transpose01 false tri) in *.
  assert (entry (tensor_float mask) i j
          = Some (MaskFloat (if negb (i <? j)%nat then 1 else 0))) as Hfloat.
  { unfold tensor_float. now rewrite entry_fmap, Hmask. }
  assert (entry (bool_tensor_eq mask 0) i j = Some (i <? j)%nat) as Hzero.
  { unfold bool_tensor_eq. rewrite entry_fmap, Hmask.
    cbv beta iota delta [fmap option_fmap option_map].
    now destruct (i <? j)%nat. }
  assert (entry (bool_tensor_eq mask 1) i j = Some (negb (i <? j)%nat)) as Hone.
  { unfold bool_tensor_eq. rewrite entry_fmap, Hmask.
    cbv beta iota delta [fmap option_fmap option_map].
    now destruct (i <? j)%nat. }
  unfold masked_fill.
  rewrite (entry_zip_with _ _ _ i j _ _
             (entry_zip_with _ _ _ i j _ _ Hfloat Hzero) Hone).
  f_equal.
  destruct (Nat.ltb_spec i j) as [Hlt | Hge]; cbn.
  - destruct (Nat.leb_spec j i); [lia | reflexivity].
  - destruct (Nat.leb_spec j i); [reflexivity | lia].
Qed.

(** ** The positional encoding's columns *)

Lemma length_filter_fmap {A B} (f : A -> B) (P : B -> Prop) (Q : A -> Prop)
    `{forall y, Decision (P y)} `{forall x, Decision (Q x)} (l : list A) :
  (forall x, x ∈ l -> (P (f x) <-> Q x)) ->
  length (filter P (f <$> l)) = length (filter Q l).
Proof.
  induction l as [| x l IH]; intros Hequiv; [reflexivity |].
  rewrite fmap_cons, !filter_cons.
  assert (length (filter P (f <$> l)) = length (filter Q l)) as Hrest.
  { apply IH. intros y Hy. apply Hequiv. now right. }
  pose proof (Hequiv x ltac:(left)) as Hx.
  destruct (decide (P (f x))), (decide (Q x)); cbn; tauto || lia.
Qed.

(** For a positive d_model, odd ones included, the two frequency vectors
    are built and fit the columns they are assigned to: [div_term] has one
    entry per even column of [pe] and [div_term2] one per odd column; and
    [div_term2] is a prefix of [div_term], so the cosine column 2k+1 uses
    the frequency of the sine column 2k. For a d_model that is not positive
    [torch.arange] refuses the bounds of [div_term2]. *)
Theorem positional_encoding_columns d_model :
  (0 < d_model ->
   exists div_term div_term2,
     div_term_arguments d_model = Ok div_term /\
     div_term2_arguments d_model = Ok div_term2 /\
     length div_term = length (slice_columns 0 2 d_model) /\
     length div_term2 = length (slice_columns 1 2 d_model) /\
     div_term2 `prefix_of` div_term) /\
  (d_model <= 0 -> div_term2_arguments d_model = Raise inconsistent_bounds).
Proof.
  unfold div_term_arguments, div_term2_arguments, torch_arange, slice_columns.
  rewrite !Z.sub_0_r. split.
  - intros Hpos.
    destruct (Z.ltb_spec d_model 0) as [Hneg | _]; [lia |].
    destruct (Z.ltb_spec (d_model - 1) 0) as [Hneg | _]; [lia |].
    do 2 eexists. split; [reflexivity |]. split; [reflexivity |].
    split; [| split].
    + rewrite <- (list_fmap_id (seqZ 0 d_model)) at 1.
      apply length_filter_fmap. intros x Hx. apply elem_of_seqZ in Hx.
      unfold id. rewrite Z.sub_0_r. split; [intros; split; [lia | assumption] | tauto].
    + rewrite (seqZ_cons 0 d_model) by exact Hpos.
      rewrite filter_cons_False by lia.
      replace (Z.pred d_model) with (d_model - 1) by lia.
      change (Z.succ 0) with (1 + 0). rewrite <- fmap_add_seqZ.
      symmetry. apply length_filter_fmap. intros x Hx. apply elem_of_seqZ in Hx.
      replace (1 + x - 1) with x by lia. rewrite Z.sub_0_r.
      split; [tauto | intros; split; [lia | assumption]].
    + replace d_model with (Z.of_nat (S (Z.to_nat (d_model - 1)))) at 2 by lia.
      rewrite seqZ_S, filter_app.
      replace (Z.of_nat (Z.to_nat (d_model - 1))) with (d_model - 1) by lia.
      apply prefix_app_r. reflexivity.
  - intros Hnpos.
    destruct (Z.ltb_spec (d_model - 1) 0) as [_ | Hge]; [reflexivity | lia].
Qed.

(** ** Constructing again from the same parameters *)

Section ConstructingAgain.
Context {torch : Torch}.

Lemma FeedForwardNet_init_params p s :
  loss_function_type (network p) = "mse" ->
  len (checked_activations p) = len (layer_sizes (network p)) - 1 ->
  net_params (snd (FeedForwardNet_init p s))
  = mk_network_params (nn_type (network p)) (layer_sizes (network p))
      (checked_activations p) (loss_function_type (network p)).
Proof.
  intros Hmse Hlen.
  rewrite FeedForwardNet_init_run. cbv zeta. rewrite Hmse.
  cbn [String.eqb Ascii.eqb Bool.eqb].
  set (n := len (layer_sizes (network p)) - 1) in *.
  set (s0 := mk_net (network p) n [] true false).
  set (s1 := if len (layer_activations (network p)) =? 1
             then set_layer_activations (list_imul (layer_activations (network p)) n) s0
             else s0).
  assert (net_params s1
          = mk_network_params (nn_type (network p)) (layer_sizes (network p))
              (checked_activations p) "mse") as Hparams.
  { unfold s1, checked_activations. fold n.
    destruct (len (layer_activations (network p)) =? 1); cbn.
    - now rewrite Hmse.
    - destruct (network p) as [ty sizes acts loss]. cbn in *. now subst loss. }
  assert (layer_activations (net_params s1) = checked_activations p) as Hacts
    by now rewrite Hparams.
  rewrite Hacts, Hlen, Z.ltb_irrefl, Z.gtb_ltb, Z.ltb_irrefl.
  pose proof (add_layers_frame (range n) s1) as (Hframe & _ & _).
  destruct (for_each (range n) add_layer s1) as [[u | e] s2]; cbn [fst snd] in *.
  - destruct (use_gpu p).
    + pose proof (move_to_cuda_frame s2) as (Hmove & _).
      now rewrite Hmove, Hframe, Hparams.
    + cbn. now rewrite Hframe, Hparams.
  - now rewrite Hframe, Hparams.
Qed.

(** The replication of a single activation is written into the shared
    parameters, and it is stable: a second network constructed from the
    parameters as the first construction left them comes out the same (same
    outcome, same layers) and leaves the activation list as it found it. *)
Theorem FeedForwardNet_init_again p s s' :
  loss_function_type (network p) = "mse" ->
  len (checked_activations p) = len (layer_sizes (network p)) - 1 ->
  let first := FeedForwardNet_init p s in
  let p' := mk_net_parameters (net_params (snd first)) (use_gpu p) (use_horovod p)
              (mini_batch_size p) in
  fst (FeedForwardNet_init p' s') = fst first /\
  layers (snd (FeedForwardNet_init p' s')) = layers (snd first) /\
  layer_activations (net_params (snd (FeedForwardNet_init p' s')))
  = layer_activations (net_params (snd first)).
Proof.
  intros Hmse Hlen first p'.
  destruct (FeedForwardNet_init_layers p s Hmse Hlen) as (Hres & Hlayers & Hacts).
  pose proof (FeedForwardNet_init_params p s Hmse Hlen) as Hparams.
  fold first in Hres, Hlayers, Hacts, Hparams.
  assert (layer_sizes (network p') = layer_sizes (network p)) as Hsizes
    by (unfold p'; cbn [network]; now rewrite Hparams).
  assert (loss_function_type (network p') = "mse") as Hmse'
    by (unfold p'; cbn [network]; now rewrite Hparams).
  assert (checked_activations p' = checked_activations p) as Hchecked.
  { unfold checked_activations at 1. rewrite Hsizes.
    assert (layer_activations (network p') = checked_activations p) as ->
      by (unfold p'; cbn [network]; now rewrite Hparams).
    destruct (Z.eqb_spec (len (checked_activations p)) 1) as [Hone | _]; [| reflexivity].
    rewrite <- Hlen, Hone. unfold list_imul. cbn. apply app_nil_r. }
  assert (len (checked_activations p') = len (layer_sizes (network p')) - 1) as Hlen'
    by now rewrite Hchecked, Hsizes.
  destruct (FeedForwardNet_init_layers p' s' Hmse' Hlen') as (Hres' & Hlayers' & Hacts').
  rewrite Hres', Hlayers', Hacts', Hres, Hlayers, Hacts, Hchecked, Hsizes.
  repeat split.
Qed.

End ConstructingAgain.

(** ** Worked instances, continued *)

Lemma sample_sizes_constructible :
  linear_layers_constructible (torch := sample_torch) [2; 3; 4; 1].
Proof.
  intros i n_in n_out Hin Hout.
  destruct i as [| [| [| i]]]; cbn in Hin, Hout; try discriminate;
    injection Hin as <-; injection Hout as <-; reflexivity.
Defined.

Lemma triclinic_grid_coordinate_stored_witness :
  orthorhombic sheared_cell = false /\
  valid_index (2, 3, 4) 1 2 3 /\
  dense sample_zeros [2; 3; 4; 4] /\
  exists a',
    get_xyz 1 2 3 a'
    = (Ok ((int_div 1 2 * 1 + int_div 2 3 * 0 + int_div 3 4 * 0)%Q,
           (int_div 2 3 * 1 + int_div 3 4 * 0)%Q,
           (int_div 3 4 * 1)%Q), a').
Proof.
  assert (orthorhombic sheared_cell = false) as H1 by reflexivity.
  assert (valid_index (2, 3, 4) 1 2 3) as H2 by (cbn; lia).
  assert (dense sample_zeros [2; 3; 4; 4]) as H3 by (repeat split).
  split; [exact H1 |]. split; [exact H2 |]. split; [exact H3 |].
  destruct (triclinic_grid_coordinate_stored (one_atom sheared_cell (0, 0, 0)%Q)
              2 3 4 sample_zeros 1 2 3 H1 H2 H3) as (a' & _ & Hget).
  exists a'. exact Hget.
Defined.

Lemma accumulate_density_sums_atoms_witness :
  dense origin_array [1; 1; 1; 4] /\
  valid_index (1, 1, 1) 0 0 0 /\
  get_xyz 0 0 0 origin_array = (Ok (0, 0, 0)%Q, origin_array) /\
  getitem origin_array [0; 0; 0; 3] = Ok 0%Q /\
  exists a',
    accumulate_density (H := sample_external) two_atoms 4 1 (1 # 2) 0 0 0 origin_array
    = (Ok tt, a') /\
    getitem a' [0; 0; 0; 3]
    = Ok (accumulated_density (H := sample_external) 4 1 (1 # 2) (0, 0, 0)%Q
            (positions two_atoms) 0%Q).
Proof.
  assert (dense origin_array [1; 1; 1; 4]) as H1 by (repeat split).
  assert (valid_index (1, 1, 1) 0 0 0) as H2 by (cbn; lia).
  assert (get_xyz 0 0 0 origin_array = (Ok (0, 0, 0)%Q, origin_array)) as H3 by reflexivity.
  assert (getitem origin_array [0; 0; 0; 3] = Ok 0%Q) as H4 by reflexivity.
  split; [exact H1 |]. split; [exact H2 |]. split; [exact H3 |]. split; [exact H4 |].
  destruct (accumulate_density_sums_atoms (H := sample_external) two_atoms origin_array
              1 1 1 0 0 0 (0, 0, 0)%Q 0%Q 4 1 (1 # 2) H1 H2 H3 H4)
    as (a' & Hrun & _ & _ & Hget).
  exists a'. split; assumption.
Defined.

Lemma calculate_python_negative_dimension_witness :
  (-1 < 0 \/ 1 < 0 \/ 1 < 0) /\
  atomic_density_sigma
    (parameters (snd (__calculate_python (H := sample_external)
                        (one_atom cubic_cell (3, 0, 0)%Q) (-1, 1, 1)
                        (sample_calculator None false false true))))
  = None.
Proof.
  assert (-1 < 0 \/ 1 < 0 \/ 1 < 0) as H1 by (left; lia).
  split; [exact H1 |].
  rewrite (calculate_python_negative_dimension (H := sample_external)
             (one_atom cubic_cell (3, 0, 0)%Q) (-1) 1 1
             (sample_calculator None false false true) H1).
  reflexivity.
Defined.



Lemma calculate_lammps_wrong_size_witness :
  let self := sample_calculator (Some 1%Q) true false true in
  let atoms := one_atom cubic_cell (3, 0, 0)%Q in
  configuration_mpi (parameters self) = false /\
  valid_grid (1, 1, 2) /\
  fst (__calculate_lammps (H := one_row_external) atoms (1, 1, 2) false false self)
  = Raise (ValueError "cannot reshape array").
Proof.
  intros self atoms.
  assert (valid_grid (1, 1, 2)) as Hg by (cbn; lia).
  split; [reflexivity |]. split; [exact Hg |].
  destruct (calculate_lammps_wrong_size (H := one_row_external) atoms 1 1 2 false self
              eq_refl Hg) as (self' & Hrun & _).
  - intros inp _. cbn. lia.
  - now rewrite Hrun.
Defined.

Lemma density_channel_independent_of_xyz_witness :
  let self := sample_calculator (Some 1%Q) true false true in
  let atoms := one_atom cubic_cell (3, 0, 0)%Q in
  configuration_mpi (parameters self) = false /\
  valid_grid (1, 1, 2) /\
  exists view4 view1 n4 n1 v,
    fst (__calculate_lammps (H := sample_external) atoms (1, 1, 2) false false
           (set_contain_xyz true self)) = Ok (RetTuple view4 n4) /\
    fst (__calculate_lammps (H := sample_external) atoms (1, 1, 2) false false
           (set_contain_xyz false self)) = Ok (RetTuple view1 n1) /\
    getitem view4 [0; 0; 1; 3] = Ok v /\ getitem view1 [0; 0; 1; 0] = Ok v.
Proof.
  intros self atoms.
  assert (valid_grid (1, 1, 2)) as Hg by (cbn; lia).
  split; [reflexivity |]. split; [exact Hg |].
  destruct (density_channel_independent_of_xyz (H := sample_external) atoms 1 1 2 false self
              eq_refl Hg (sample_engine_full_grid atoms))
    as (view4 & view1 & n4 & n1 & H4 & H1 & _ & Hsame).
  destruct (Hsame 0 0 1) as (v & Hv4 & Hv1); [cbn; lia |].
  exists view4, view1, n4, n1, v. repeat split; assumption.
Defined.

Lemma serial_mode_ignores_z_splitting_witness :
  let self := sample_calculator (Some 1%Q) true false true in
  let atoms := one_atom cubic_cell (3, 0, 0)%Q in
  configuration_mpi (parameters self) = false /\
  fst (__calculate_lammps (H := sample_external) atoms (1, 1, 2) false false
         (set_use_z_splitting true self))
  = fst (__calculate_lammps (H := sample_external) atoms (1, 1, 2) false false self).
Proof.
  intros self atoms. split; [reflexivity |].
  apply (serial_mode_ignores_z_splitting (H := sample_external) atoms (1, 1, 2) false false
           self true eq_refl).
Defined.

Lemma reshape_transpose_is_a_rearrangement_witness :
  let out := lammps_run (External := sample_external) (one_atom cubic_cell (3, 0, 0)%Q)
               (mk_engine_input None 2 (1, 1, 2) "in.ggrid_defaultproc.python" false) in
  valid_grid (1, 1, 2) /\
  full_grid_output out (1, 1, 2) /\
  exists A x y z c,
    reshape_transpose (engine_array out) (1, 1, 2) = Ok A /\
    flat_index (shape A) (strides A) [x; y; z; c] = Ok 12.
Proof.
  intros out.
  assert (valid_grid (1, 1, 2)) as Hg by (cbn; lia).
  assert (full_grid_output out (1, 1, 2)) as Hout by (split; reflexivity).
  split; [exact Hg |]. split; [exact Hout |].
  destruct (reshape_transpose_is_a_rearrangement out 1 1 2 Hg Hout) as (A & HA & Hall & _).
  destruct (Hall 12) as (x & y & z & c & _ & _ & Hpos); [lia |].
  exists A, x, y, z, c. split; assumption.
Defined.

Lemma FeedForwardNet_init_builds_layers_witness :
  let p := sample_net_parameters ["ReLU"] in
  let run := FeedForwardNet_init (torch := sample_torch) p blank_net in
  loss_function_type (network p) = "mse" /\
  len (checked_activations p) = len (layer_sizes (network p)) - 1 /\
  Forall (fun name => is_Some (activation_mappings name)) (checked_activations p) /\
  linear_layers_constructible (torch := sample_torch) (layer_sizes (network p)) /\
  (use_gpu p = true -> module_to_cuda (Torch := sample_torch) = None) /\
  fst run = Ok tt /\
  len (layers (snd run)) = 6 /\
  layers (snd run) !! 2%nat = Some (Linear 3 4) /\
  layers (snd run) !! 3%nat = Some (Activation ReLU).
Proof.
  intros p run.
  assert (loss_function_type (network p) = "mse") as H1 by reflexivity.
  assert (len (checked_activations p) = len (layer_sizes (network p)) - 1) as H2
    by reflexivity.
  assert (Forall (fun name => is_Some (activation_mappings name)) (checked_activations p))
    as H3 by (repeat constructor; eexists; reflexivity).
  assert (linear_layers_constructible (torch := sample_torch) (layer_sizes (network p)))
    as H4 by exact sample_sizes_constructible.
  assert (use_gpu p = true -> module_to_cuda (Torch := sample_torch) = None) as H5
    by discriminate.
  split; [exact H1 |]. split; [exact H2 |]. split; [exact H3 |]. split; [exact H4 |].
  split; [exact H5 |].
  destruct (FeedForwardNet_init_builds_layers (torch := sample_torch) p blank_net
              H1 H2 H3 H4 H5) as (Hok & Hlen & Hat).
  split; [exact Hok |]. split; [exact Hlen |].
  exact (Hat 1%nat 3 4 "ReLU" ReLU eq_refl eq_refl eq_refl eq_refl).
Defined.

Lemma FeedForwardNet_init_invalid_activation_witness :
  let p := sample_net_parameters ["ReLU"; "Softmax"; "Tanh"] in
  loss_function_type (network p) = "mse" /\
  len (checked_activations p) = len (layer_sizes (network p)) - 1 /\
  linear_layers_constructible (torch := sample_torch) (layer_sizes (network p)) /\
  Exists (fun name => activation_mappings name = None) (checked_activations p) /\
  fst (FeedForwardNet_init (torch := sample_torch) p blank_net) = Raise invalid_activation.
Proof.
  intros p.
  assert (loss_function_type (network p) = "mse") as H1 by reflexivity.
  assert (len (checked_activations p) = len (layer_sizes (network p)) - 1) as H2
    by reflexivity.
  assert (linear_layers_constructible (torch := sample_torch) (layer_sizes (network p)))
    as H3 by exact sample_sizes_constructible.
  assert (Exists (fun name => activation_mappings name = None) (checked_activations p))
    as H4 by (apply Exists_cons_tl, Exists_cons_hd; reflexivity).
  split; [exact H1 |]. split; [exact H2 |]. split; [exact H3 |]. split; [exact H4 |].
  exact (FeedForwardNet_init_invalid_activation (torch := sample_torch) p blank_net
           H1 H2 H3 H4).
Defined.

(** Layer sizes 2, -3, 4, 1: the first linear layer is refused. *)
Lemma FeedForwardNet_init_linear_refused_witness :
  let p := mk_net_parameters
             (mk_network_params "feed-forward" [2; -3; 4; 1] ["ReLU"] "mse")
             false false 1 in
  let e := TorchRuntimeError "Trying to create tensor with negative dimension" in
  loss_function_type (network p) = "mse" /\
  len (checked_activations p) = len (layer_sizes (network p)) - 1 /\
  Forall (fun name => is_Some (activation_mappings name)) (checked_activations p) /\
  nn_Linear (Torch := sample_torch) 2 (-3) = Some e /\
  fst (FeedForwardNet_init (torch := sample_torch) p blank_net)
  = Raise (RuntimeError "Trying to create tensor with negative dimension") /\
  len (layers (snd (FeedForwardNet_init (torch := sample_torch) p blank_net))) = 0.
Proof.
  intros p e.
  assert (loss_function_type (network p) = "mse") as H1 by reflexivity.
  assert (len (checked_activations p) = len (layer_sizes (network p)) - 1) as H2
    by reflexivity.
  assert (Forall (fun name => is_Some (activation_mappings name)) (checked_activations p))
    as H3 by (repeat constructor; eexists; reflexivity).
  assert (nn_Linear (Torch := sample_torch) 2 (-3) = Some e) as H4 by reflexivity.
  split; [exact H1 |]. split; [exact H2 |]. split; [exact H3 |]. split; [exact H4 |].
  apply (FeedForwardNet_init_linear_refused (torch := sample_torch) p blank_net
           0%nat 2 (-3) e H1 H2 H3 eq_refl eq_refl H4).
  intros i' x y Hlt. lia.
Defined.

Lemma FeedForwardNet_init_no_layer_sizes_witness :
  let p := mk_net_parameters (mk_network_params "feed-forward" [] [] "mse") false false 1 in
  layer_sizes (network p) = [] /\
  loss_function_type (network p) = "mse" /\
  fst (FeedForwardNet_init (torch := sample_torch) p blank_net) = Raise too_many.
Proof.
  intros p. split; [reflexivity |]. split; [reflexivity |].
  exact (FeedForwardNet_init_no_layer_sizes (torch := sample_torch) p blank_net
           eq_refl eq_refl).
Defined.

Lemma FeedForwardNet_init_again_witness :
  let p := sample_net_parameters ["ReLU"] in
  let first := FeedForwardNet_init (torch := sample_torch) p blank_net in
  let p' := mk_net_parameters (net_params (snd first)) false false 1 in
  loss_function_type (network p) = "mse" /\
  len (checked_activations p) = len (layer_sizes (network p)) - 1 /\
  layer_activations (network p') = ["ReLU"; "ReLU"; "ReLU"] /\
  layers (snd (FeedForwardNet_init (torch := sample_torch) p' blank_net))
  = layers (snd first).
Proof.
  intros p first p'.
  assert (loss_function_type (network p) = "mse") as H1 by reflexivity.
  assert (len (checked_activations p) = len (layer_sizes (network p)) - 1) as H2
    by reflexivity.
  split; [exact H1 |]. split; [exact H2 |]. split; [reflexivity |].
  destruct (FeedForwardNet_init_again (torch := sample_torch) p blank_net blank_net
              H1 H2) as (_ & Hlayers & _).
  exact Hlayers.
Defined.

Lemma adjust_num_heads_least_divisor_witness :
  1 <= 5 <= 12 /\ (Z.to_nat (12 - 5) < 8)%nat /\
  adjust_num_heads 8 [12; 24; 1] 5 = Heads 6.
Proof.
  assert (1 <= 5 <= 12) as H1 by lia.
  assert (Z.to_nat (12 - 5) < 8)%nat as H2 by (cbn; lia).
  split; [exact H1 |]. split; [exact H2 |].
  destruct (adjust_num_heads_least_divisor 8 12 [24; 1] 5 H1 H2)
    as (h' & Hrun & Hrange & Hdiv & Hmin).
  rewrite Hrun. f_equal.
  assert (h' = 5 \/ h' = 6 \/ 7 <= h' <= 12) as [-> | [-> | Hbig]] by lia.
  - discriminate Hdiv.
  - reflexivity.
  - exfalso. apply (Hmin 6); [lia | reflexivity].
Defined.

Lemma adjust_num_heads_never_ends_witness :
  0 < 5 < 8 /\ adjust_num_heads 1000 [5; 10; 1] 8 = HeadsStillRunning.
Proof.
  assert (0 < 5 < 8) as H1 by lia.
  split; [exact H1 |].
  exact (adjust_num_heads_never_ends 1000 5 [10; 1] 8 H1).
Defined.

Lemma generate_square_subsequent_mask_is_causal_witness :
  (1 < Z.to_nat 3)%nat /\ (2 < Z.to_nat 3)%nat /\
  entry (generate_square_subsequent_mask 3) 1 2 = Some MinusInfinity /\
  entry (generate_square_subsequent_mask 3) 2 1 = Some (MaskFloat 0).
Proof.
  assert (1 < Z.to_nat 3)%nat as H1 by (cbn; lia).
  assert (2 < Z.to_nat 3)%nat as H2 by (cbn; lia).
  split; [exact H1 |]. split; [exact H2 |]. split.
  - exact (generate_square_subsequent_mask_is_causal 3 1 2 H1 H2).
  - exact (generate_square_subsequent_mask_is_causal 3 2 1 H2 H1).
Defined.

(** The positional encoding at d_model = 5: three even columns, two odd
    ones. *)
Lemma positional_encoding_columns_witness :
  0 < 5 /\
  div_term_arguments 5 = Ok [0; 2; 4] /\
  div_term2_arguments 5 = Ok [0; 2] /\
  slice_columns 0 2 5 = [0; 2; 4] /\
  slice_columns 1 2 5 = [1; 3].
Proof.
  assert (0 < 5) as H1 by lia.
  split; [exact H1 |].
  destruct (positional_encoding_columns 5) as (Hpos & _).
  destruct (Hpos H1) as (div_term & div_term2 & Hd & Hd2 & _).
  rewrite Hd, Hd2. vm_compute in Hd, Hd2.
  injection Hd as <-. injection Hd2 as <-.
  repeat split.
Defined.
